(** * gonfoot: the gRPC/HTTP front-end of package [server]

    A shallow embedding of [server/server.go] and of the middleware file of
    the same package ([upgradeHandler], [logger], [reverseProxy],
    [mustReverseProxy], [onlyWhenReady], [requireBasicAuth]), together with
    the part of Go's [net/http], [net/url], [crypto/subtle] and [log/slog]
    that this code calls.

    Conventions.
    - An [http.Handler] is a function from a request and a world to a world.
      The world holds what a handler can touch through its closure and its
      arguments: the shared [*server] (flags, configuration, log output) and
      the [http.ResponseWriter] of the request.  The Go constructors take
      [s *server] as an argument and keep the pointer; here the server is
      read from the world at the moment the handler runs, which is when the
      Go closure dereferences the pointer.
    - Go strings are byte strings: [string].  Go [int] values that occur
      (status codes, [ProtoMajor]) are [Z].
    - Library routines whose text is long and on which nothing here depends
      ([URL.String], base64 decoding, the body of [url.Parse] after its first
      check, [http.Redirect]) and the handlers built by other packages are
      fields of the classes [NetLib] and [Collaborators]. *)

From Stdlib Require Import ZArith String Ascii List Bool Lia.
From stdpp Require Import gmap strings list fin_maps pretty.

Local Open Scope Z_scope.
Local Open Scope string_scope.

(** ** Errors and log output *)

(** Go [error] values, as far as this package builds or inspects them. *)
Inductive error : Type :=
| errorString (msg : string)                  (* errors.New *)
| url_Error (Op URL : string) (Err : error)   (* *url.Error *)
| wrapError (msg : string) (err : error).     (* fmt.Errorf("msg: %w", err) *)

Inductive Level : Type := LevelInfo | LevelError.

(** Values of [slog] attributes used by this package. *)
Inductive any : Type :=
| anyString (s : string)
| anyError (e : error).

Record LogRecord : Type := mkLogRecord {
  lr_level : Level;
  lr_msg : string;
  lr_attrs : list (string * any)
}.

(** ** Requests *)

Abbreviation http_Header := (gmap string (list string)).

(** [url.Userinfo]: a user name and an optional password. *)
Record url_Userinfo : Type := mkUserinfo {
  username : string;
  password : string;
  passwordSet : bool
}.

Record url_URL : Type := mkURL {
  Scheme : string;
  User : option url_Userinfo;
  Host : string;
  Path : string;
  RawPath : string;
  RawQuery : string;
  Fragment : string
}.

Record Request : Type := mkRequest {
  Method : string;
  URL : url_URL;
  ProtoMajor : Z;
  ProtoMinor : Z;
  Header : http_Header;
  RequestURI : string
}.

(** ** Responses *)

(** The [http.ResponseWriter] of one request: the header map the handler
    edits, what [WriteHeader] has sent (status and a snapshot of the header
    map, at most once) and the body written so far. *)
Record ResponseWriter : Type := mkResponseWriter {
  w_Header : http_Header;
  w_wrote : option (Z * http_Header);
  w_body : string
}.

Definition newResponseWriter : ResponseWriter :=
  mkResponseWriter ∅ None EmptyString.

Definition w_status (w : ResponseWriter) : option Z := fst <$> w_wrote w.
Definition w_sentHeader (w : ResponseWriter) : option http_Header := snd <$> w_wrote w.

(** ** The server *)

(** The fields of [config.Config] that this package reads. *)
Record Config : Type := mkConfig {
  HttpHost : string;
  HttpPort : Z;
  MonitorInterval : Z;
  HttpShutdownGracePeriod : Z;
  PostgresUsername : string;
  PostgresPassword : string;
  PostgresHost : string;
  PostgresPort : Z;
  PostgresDatabase : string;
  PostgresSchema : string;
  ExampleBasicAuthUser : string;
  ExampleBasicAuthPassword : string;
  ExampleReverseProxyURL : string
}.

(** [serverConfig]: the embedded [*config.Config] and the derived fields;
    the two durations are in nanoseconds. *)
Record serverConfig : Type := mkServerConfig {
  Config_ : Config;
  httpAddr : string;
  dsn : string;
  shutdownTimeout : Z;
  monitorInterval : Z
}.

(** The part of [server] that the code of this package reads and writes
    while it runs: the five [atomic.Bool] flags, the configuration and the
    output of [s.log].  The fields [mux] and [httpServer] hold handlers, which
    are functions over this record, and are returned next to it by [New]. *)
Record server : Type := mkServer {
  config : serverConfig;
  log : list LogRecord;
  live : bool;
  ready : bool;
  shutdownRequested : bool;
  httpServerAvailable : bool;
  databaseAvailable : bool
}.

Record World : Type := mkWorld {
  srv : server;
  rw : ResponseWriter
}.

Definition Handler : Type := Request -> World -> World.

(** Sequencing of effects on the world, in program order. *)
Definition andThen (f g : World -> World) : World -> World := fun w => g (f w).
Notation "f >>> g" := (andThen f g) (at level 61, left associativity).

Definition on_rw (f : ResponseWriter -> ResponseWriter) : World -> World :=
  fun w => mkWorld (srv w) (f (rw w)).

Definition with_log (l : list LogRecord) (s : server) : server :=
  mkServer (config s) l (live s) (ready s) (shutdownRequested s)
           (httpServerAvailable s) (databaseAvailable s).

(** [s.log.Info(msg, args...)] and [s.log.Error(msg, args...)]. *)
Definition server_logf (lv : Level) (msg : string) (attrs : list (string * any))
    (s : server) : server :=
  with_log (log s ++ [mkLogRecord lv msg attrs])%list s.

Definition log_Info (msg : string) (attrs : list (string * any)) : World -> World :=
  fun w => mkWorld (server_logf LevelInfo msg attrs (srv w)) (rw w).

(** ** [net/http]: headers, [WriteHeader], [Write], [Error] *)

(** [Header.Get]: the first value stored under the key, or the empty string.
    Every key this package passes is already in canonical MIME form, on which
    [CanonicalMIMEHeaderKey] is the identity. *)
Definition Header_Get (h : http_Header) (key : string) : string :=
  match h !! key with
  | Some (v :: _) => v
  | _ => EmptyString
  end.

Definition Header_Set (key value : string) (h : http_Header) : http_Header :=
  <[key := [value]]> h.

Definition w_Header_Set (key value : string) (w : ResponseWriter) : ResponseWriter :=
  mkResponseWriter (Header_Set key value (w_Header w)) (w_wrote w) (w_body w).

(** [WriteHeader] sends the status line and the header map as it is now; a
    second call changes nothing. *)
Definition WriteHeader (code : Z) (w : ResponseWriter) : ResponseWriter :=
  match w_wrote w with
  | Some _ => w
  | None => mkResponseWriter (w_Header w) (Some (code, w_Header w)) (w_body w)
  end.

Definition StatusOK : Z := 200.
Definition StatusMovedPermanently : Z := 301.
Definition StatusBadRequest : Z := 400.
Definition StatusUnauthorized : Z := 401.
Definition StatusNotFound : Z := 404.
Definition StatusServiceUnavailable : Z := 503.

(** [Write] calls [WriteHeader(StatusOK)] first when nothing was sent. *)
Definition Write (data : string) (w : ResponseWriter) : ResponseWriter :=
  let w1 := WriteHeader StatusOK w in
  mkResponseWriter (w_Header w1) (w_wrote w1) (w_body w1 +:+ data).

Definition newline : string := String (ascii_of_nat 10) EmptyString.

(** [http.Error(w, error, code)], as in the Go releases up to 1.22; later
    releases also delete a few headers of the response first. *)
Definition http_Error (err : string) (code : Z) (w : ResponseWriter) : ResponseWriter :=
  Write (err +:+ newline)
    (WriteHeader code
      (w_Header_Set "X-Content-Type-Options" "nosniff"
        (w_Header_Set "Content-Type" "text/plain; charset=utf-8" w))).

(** [http.NotFound] and [http.NotFoundHandler()]. *)
Definition NotFound : Handler :=
  fun _ => on_rw (http_Error "404 page not found" StatusNotFound).
Definition NotFoundHandler : Handler := NotFound.

(** ** [strings] *)

(** [strings.Cut(s, sep)] for a one-byte separator. *)
Fixpoint strings_Cut (s : string) (sep : ascii) : string * string * bool :=
  match s with
  | EmptyString => (EmptyString, EmptyString, false)
  | String c s' =>
      if Ascii.eqb c sep then (EmptyString, s', true)
      else let '(before, after, found) := strings_Cut s' sep in
           if found then (String c before, after, true)
           else (String c s', EmptyString, false)
  end.

Definition strings_HasPrefix (s pre : string) : bool := String.prefix pre s.

(** [strings.TrimPrefix]. *)
Definition strings_TrimPrefix (s pre : string) : string :=
  if strings_HasPrefix s pre
  then substring (String.length pre) (String.length s - String.length pre) s
  else s.

(** ASCII lower-casing, for [ascii.EqualFold]. *)
Definition ascii_lower (c : ascii) : ascii :=
  let n := nat_of_ascii c in
  if (65 <=? n)%nat && (n <=? 90)%nat then ascii_of_nat (n + 32) else c.

Fixpoint string_lower (s : string) : string :=
  match s with
  | EmptyString => EmptyString
  | String c s' => String (ascii_lower c) (string_lower s')
  end.

Definition ascii_EqualFold (s t : string) : bool :=
  String.eqb (string_lower s) (string_lower t).

(** ** [crypto/subtle] *)

(** [[]byte(s)]: the bytes of a Go string, each in [0, 256). *)
Definition bytes (s : string) : list Z :=
  map (fun c => Z.of_N (N_of_ascii c)) (list_ascii_of_string s).

(** [ConstantTimeByteEq(x, y uint8) int]:
    [int((uint32(x^y) - 1) >> 31)], the subtraction wrapping at 32 bits. *)
Definition ConstantTimeByteEq (x y : Z) : Z :=
  Z.shiftr ((Z.lxor x y - 1) mod 2 ^ 32) 31.

(** The loop [v |= x[i] ^ y[i]] of [ConstantTimeCompare]. *)
Fixpoint xor_accumulate (v : Z) (x y : list Z) : Z :=
  match x, y with
  | a :: x', b :: y' => xor_accumulate (Z.lor v (Z.lxor a b)) x' y'
  | _, _ => v
  end.

(** [subtle.ConstantTimeCompare(x, y []byte) int]. *)
Definition ConstantTimeCompare (x y : list Z) : Z :=
  if negb (Nat.eqb (length x) (length y)) then 0
  else ConstantTimeByteEq (xor_accumulate 0 x y) 0.

(** ** Library routines and collaborators taken as parameters *)

(** Results of library calls that return [(T, error)]. *)
Inductive result (A : Type) : Type :=
| Ok (a : A)
| Err (e : error).
Arguments Ok {A} a.
Arguments Err {A} e.

Class NetLib : Type := {
  (** [URL.String] *)
  URL_String : url_URL -> string;
  (** [base64.StdEncoding.DecodeString]; [None] is a decoding error *)
  base64_DecodeString : string -> option string;
  (** [url.Parse] on an input whose part before '#' holds no control byte *)
  url_Parse_checked : string -> result url_URL;
  (** [http.RedirectHandler(url, code)] *)
  RedirectHandler : string -> Z -> Handler
}.

Class Collaborators : Type := {
  (** the [*grpc.Server] with the API service registered *)
  grpcServer : Handler;
  (** the grpc-gateway [*runtime.ServeMux] registered for the endpoint *)
  grpcMux : Handler;
  (** [http.FileServer(http.FS(static.Http))] *)
  staticFileServer : Handler;
  (** [promhttp.Handler()] *)
  promhttp_Handler : Handler;
  (** [ReverseProxy.ServeHTTP] with [Rewrite] set to
      [r.SetURL(url)] *)
  ReverseProxy_ServeHTTP : url_URL -> Handler;
  (** the result of [pb.RegisterAPIHandlerFromEndpoint] *)
  RegisterAPIHandlerFromEndpoint : option error
}.

(** ** [net/url] *)

(** [UserPassword(username, password)]. *)
Definition UserPassword (u p : string) : url_Userinfo := mkUserinfo u p true.

Definition with_User (ui : option url_Userinfo) (u : url_URL) : url_URL :=
  mkURL (Scheme u) ui (Host u) (Path u) (RawPath u) (RawQuery u) (Fragment u).

Section Library.
Context `{lib : NetLib}.

(** [URL.Redacted]: the password, when there is one, is replaced by
    "xxxxx" before the URL is printed. *)
Definition URL_Redacted (u : url_URL) : string :=
  match User u with
  | Some ui =>
      if passwordSet ui
      then URL_String (with_User (Some (UserPassword (username ui) "xxxxx")) u)
      else URL_String u
  | None => URL_String u
  end.

(** [stringContainsCTLByte]. *)
Definition isCTLByte (c : ascii) : bool :=
  let n := nat_of_ascii c in (n <? 32)%nat || Nat.eqb n 127.

Fixpoint stringContainsCTLByte (s : string) : bool :=
  match s with
  | EmptyString => false
  | String c s' => isCTLByte c || stringContainsCTLByte s'
  end.

Definition in_quotes (s : string) : string :=
  String (ascii_of_nat 34) (s +:+ String (ascii_of_nat 34) EmptyString).

(** [url.Parse]: the fragment is cut off, and the remainder is rejected at
    once when it holds an ASCII control byte. *)
Definition url_Parse (rawURL : string) : result url_URL :=
  let '(u, _, _) := strings_Cut rawURL "#"%char in
  if stringContainsCTLByte u
  then Err (url_Error "parse" u
              (errorString "net/url: invalid control character in URL"))
  else url_Parse_checked rawURL.

(** [parseBasicAuth]. *)
Definition parseBasicAuth (auth : string) : string * string * bool :=
  let prefix := "Basic " in
  if (String.length auth <? String.length prefix)%nat
     || negb (ascii_EqualFold (substring 0 (String.length prefix) auth) prefix)
  then (EmptyString, EmptyString, false)
  else
    match base64_DecodeString
            (substring (String.length prefix)
                       (String.length auth - String.length prefix) auth) with
    | None => (EmptyString, EmptyString, false)
    | Some cs =>
        let '(user, pass, ok) := strings_Cut cs ":"%char in
        if ok then (user, pass, true) else (EmptyString, EmptyString, false)
    end.

(** [Request.BasicAuth]. *)
Definition Request_BasicAuth (r : Request) : string * string * bool :=
  let auth := Header_Get (Header r) "Authorization" in
  if String.eqb auth EmptyString then (EmptyString, EmptyString, false) else parseBasicAuth auth.

(** ** The middleware *)

(** [upgradeHandler(base, upgrade)]. *)
Definition upgradeHandler (base upgrade : Handler) : Handler :=
  fun r w =>
    if (ProtoMajor r =? 2)%Z
       && String.eqb (Header_Get (Header r) "Content-Type") "application/grpc"
    then upgrade r w
    else base r w.

Definition request_attrs (r : Request) : list (string * any) :=
  [("method", anyString (Method r)); ("url", anyString (URL_Redacted (URL r)))].

(** [logger(s, handler)]. *)
Definition logger (handler : Handler) : Handler :=
  fun r => log_Info "request" (request_attrs r) >>> handler r.

(** [onlyWhenReady(s, handler)]. *)
Definition onlyWhenReady (handler : Handler) : Handler :=
  fun r w =>
    if negb (ready (srv w)) then
      (on_rw (http_Error "service not ready" StatusServiceUnavailable) >>>
       log_Info "service called when not ready" (request_attrs r)) w
    else handler r w.

Definition basicRealm : string :=
  "Basic realm=" +:+ in_quotes "Restricted".

(** [requireBasicAuth(s, handler)]. *)
Definition requireBasicAuth (handler : Handler) : Handler :=
  fun r w =>
    let '(user, pass, ok) := Request_BasicAuth r in
    let cfg := Config_ (config (srv w)) in
    if negb ok
       || negb (ConstantTimeCompare (bytes user) (bytes (ExampleBasicAuthUser cfg)) =? 1)%Z
       || negb (ConstantTimeCompare (bytes pass) (bytes (ExampleBasicAuthPassword cfg)) =? 1)%Z
    then
      (log_Info "unauthorized request" (request_attrs r ++ [("user", anyString user)])%list >>>
       on_rw (w_Header_Set "WWW-Authenticate" basicRealm) >>>
       on_rw (http_Error "Unauthorized" StatusUnauthorized)) w
    else
      (log_Info "authorized request" (request_attrs r ++ [("user", anyString user)])%list >>>
       handler r) w.

End Library.

(** ** [path.Clean] and the request multiplexer of [net/http] *)

(** The elements of a path between slashes. *)
Fixpoint split_slash (s : string) : list string :=
  match s with
  | EmptyString => [EmptyString]
  | String c s' =>
      if Ascii.eqb c "/"%char then EmptyString :: split_slash s'
      else match split_slash s' with
           | x :: xs => String c x :: xs
           | [] => [String c EmptyString]
           end
  end.

(** One pass over the elements: empty elements and "." are dropped, ".."
    removes the element before it (and is dropped at the root). [out] is the
    cleaned path so far, last element first. *)
Fixpoint clean_elems (out elems : list string) : list string :=
  match elems with
  | [] => rev out
  | e :: es =>
      if String.eqb e EmptyString || String.eqb e "." then clean_elems out es
      else if String.eqb e ".." then clean_elems (tail out) es
      else clean_elems (e :: out) es
  end.

(** [path.Clean] on a rooted path. *)
Definition path_Clean (p : string) : string :=
  "/" +:+ String.concat "/" (clean_elems [] (split_slash p)).

Definition last_byte (s : string) : option ascii :=
  last (list_ascii_of_string s).

Definition ends_with_slash (s : string) : bool :=
  match last_byte s with
  | Some c => Ascii.eqb c "/"%char
  | None => false
  end.

(** [cleanPath] of [net/http]: the canonical path, with a trailing slash
    kept. *)
Definition cleanPath (p : string) : string :=
  if String.eqb p EmptyString then "/"
  else
    let p := if strings_HasPrefix p "/" then p else "/" +:+ p in
    let np := path_Clean p in
    if ends_with_slash p && negb (String.eqb np "/") then np +:+ "/" else np.

(** The entries of a [*http.ServeMux] in registration order, with the
    matching rules of the mux before Go 1.22. No pattern of this package
    names a host or a method, so host-specific lookups never succeed and are
    left out. *)
Definition ServeMux : Type := list (string * Handler).

(** [mux.Handle(pattern, handler)]; the patterns registered by [New] are
    distinct and not empty, so the call does not panic. *)
Definition ServeMux_Handle (pattern : string) (handler : Handler) (mux : ServeMux)
    : ServeMux :=
  (mux ++ [(pattern, handler)])%list.

Definition mux_exact (mux : ServeMux) (path : string) : option (string * Handler) :=
  List.find (fun e => String.eqb (fst e) path) mux.

(** The longest entry among those already selected. *)
Fixpoint longest_entry (best : option (string * Handler)) (es : ServeMux)
    : option (string * Handler) :=
  match es with
  | [] => best
  | e :: es' =>
      match best with
      | Some b =>
          if (String.length (fst b) <? String.length (fst e))%nat
          then longest_entry (Some e) es'
          else longest_entry best es'
      | None => longest_entry (Some e) es'
      end
  end.

(** [mux.match]: an exact match first, then the longest pattern ending in a
    slash that is a prefix of the path. *)
Definition ServeMux_match (mux : ServeMux) (path : string) : option (string * Handler) :=
  match mux_exact mux path with
  | Some e => Some e
  | None =>
      longest_entry None
        (List.filter (fun e => ends_with_slash (fst e) && strings_HasPrefix path (fst e))
           mux)
  end.

(** [mux.handler(host, path)]. *)
Definition ServeMux_handler (mux : ServeMux) (path : string) : Handler :=
  match ServeMux_match mux path with
  | Some e => snd e
  | None => NotFoundHandler
  end.

(** [mux.shouldRedirectRLocked(host, path)]: the path itself is not
    registered and the path followed by a slash is. *)
Definition shouldRedirect (mux : ServeMux) (path : string) : bool :=
  match mux_exact mux path with
  | Some _ => false
  | None =>
      if String.eqb path EmptyString then false
      else match mux_exact mux (path +:+ "/") with
           | Some _ => negb (ends_with_slash path)
           | None => false
           end
  end.

Definition redirect_URL (path rawQuery : string) : url_URL :=
  mkURL EmptyString None EmptyString path EmptyString rawQuery EmptyString.

Definition ProtoAtLeast (r : Request) (major minor : Z) : bool :=
  (major <? ProtoMajor r)%Z || ((ProtoMajor r =? major)%Z && (minor <=? ProtoMinor r)%Z).

Definition with_paths (p rp : string) (r : Request) : Request :=
  mkRequest (Method r)
    (mkURL (Scheme (URL r)) (User (URL r)) (Host (URL r)) p rp
           (RawQuery (URL r)) (Fragment (URL r)))
    (ProtoMajor r) (ProtoMinor r) (Header r) (RequestURI r).

(** [http.StripPrefix(prefix, h)]. *)
Definition StripPrefix (prefix : string) (h : Handler) : Handler :=
  if String.eqb prefix EmptyString then h
  else fun r w =>
    let p := strings_TrimPrefix (Path (URL r)) prefix in
    let rp := strings_TrimPrefix (RawPath (URL r)) prefix in
    if (String.length p <? String.length (Path (URL r)))%nat
       && (String.eqb (RawPath (URL r)) EmptyString
           || (String.length rp <? String.length (RawPath (URL r)))%nat)
    then h (with_paths p rp r) w
    else NotFound r w.

Section Mux.
Context `{lib : NetLib}.

(** [mux.Handler(r)]: a request whose path is not canonical, or names a
    registered subtree without its slash, is answered by a redirect. *)
Definition ServeMux_Handler (mux : ServeMux) (r : Request) : Handler :=
  if String.eqb (Method r) "CONNECT" then
    if shouldRedirect mux (Path (URL r))
    then RedirectHandler
           (URL_String (redirect_URL (Path (URL r) +:+ "/") (RawQuery (URL r))))
           StatusMovedPermanently
    else ServeMux_handler mux (Path (URL r))
  else
    let path := cleanPath (Path (URL r)) in
    if shouldRedirect mux path
    then RedirectHandler
           (URL_String (redirect_URL (path +:+ "/") (RawQuery (URL r))))
           StatusMovedPermanently
    else if negb (String.eqb path (Path (URL r)))
    then RedirectHandler
           (URL_String (redirect_URL path (RawQuery (URL r))))
           StatusMovedPermanently
    else ServeMux_handler mux (Path (URL r)).

(** [mux.ServeHTTP(w, r)]. *)
Definition ServeMux_ServeHTTP (mux : ServeMux) : Handler :=
  fun r w =>
    if String.eqb (RequestURI r) "*" then
      on_rw (fun rw0 =>
               WriteHeader StatusBadRequest
                 (if ProtoAtLeast r 1 1 then w_Header_Set "Connection" "close" rw0
                  else rw0)) w
    else ServeMux_Handler mux r r w.

End Mux.

(** ** Construction: [mustReverseProxy] and [New] *)

(** A call that returns a value or panics with one. *)
Inductive outcome (A : Type) : Type :=
| Returned (a : A)
| Panicked (v : string).
Arguments Returned {A} a.
Arguments Panicked {A} v.

(** [reverseProxy(proxy)]. *)
Definition reverseProxy (proxy : Handler) : Handler :=
  fun r w => proxy r w.

(** [http.Server] as [New] fills it. *)
Record http_Server : Type := mkHttpServer {
  Addr : string;
  Handler_ : Handler
}.

(** What [New] hands back on success: the server with its [mux] and
    [httpServer] fields. *)
Record built : Type := mkBuilt {
  b_server : server;
  b_mux : ServeMux;
  b_httpServer : http_Server
}.

Definition has_byte (c : ascii) (s : string) : bool :=
  existsb (Ascii.eqb c) (list_ascii_of_string s).

(** [net.JoinHostPort]: a host with a colon in it is an IPv6 literal and is
    put in brackets. *)
Definition net_JoinHostPort (host port : string) : string :=
  if has_byte ":"%char host
  then "[" +:+ host +:+ "]:" +:+ port
  else host +:+ ":" +:+ port.

(** Multiplication of [time.Duration] values, wrapping at 64 bits. *)
Definition wrap64 (z : Z) : Z := (z + 2 ^ 63) mod 2 ^ 64 - 2 ^ 63.
Definition time_Second : Z := 1000000000.
Definition seconds (n : Z) : Z := wrap64 (wrap64 n * time_Second).

Definition newServerConfig (cfg : Config) : serverConfig :=
  mkServerConfig cfg
    (net_JoinHostPort (HttpHost cfg) (pretty (HttpPort cfg)))
    ("postgres://" +:+ PostgresUsername cfg +:+ ":" +:+ PostgresPassword cfg
       +:+ "@" +:+ PostgresHost cfg +:+ ":" +:+ pretty (PostgresPort cfg)
       +:+ "/" +:+ PostgresDatabase cfg +:+ "?search_path=" +:+ PostgresSchema cfg)
    (seconds (HttpShutdownGracePeriod cfg))
    (seconds (MonitorInterval cfg)).

(** The server as [New] creates it: every flag stored false. *)
Definition new_server (log0 : list LogRecord) (cfg : Config) : server :=
  mkServer (newServerConfig cfg) log0 false false false false false.

Section Construction.
Context `{lib : NetLib} `{col : Collaborators}.

(** [mustReverseProxy(s, rawURL)]: the log output of [s] after the call, and
    the handler or the panic. *)
Definition mustReverseProxy (s : server) (rawURL : string) : server * outcome Handler :=
  match url_Parse rawURL with
  | Err err =>
      (server_logf LevelError "failed to parse reverse proxy url"
         [("rawURL", anyString rawURL); ("error", anyError err)] s,
       Panicked rawURL)
  | Ok url => (s, Returned (reverseProxy (ReverseProxy_ServeHTTP url)))
  end.

(** The five routes registered before the reverse proxy, in source order. *)
Definition routes_before_proxy : ServeMux :=
  ServeMux_Handle "/api/" (StripPrefix "/api" (onlyWhenReady (logger grpcMux)))
    (ServeMux_Handle "/metrics" promhttp_Handler
      (ServeMux_Handle "/static/" (StripPrefix "/static/" staticFileServer)
        (ServeMux_Handle "/favicon.ico" staticFileServer
          (ServeMux_Handle "/" (requireBasicAuth NotFoundHandler) [])))).

(** The mux of [New], the reverse-proxy route added last. *)
Definition routes (proxy : Handler) : ServeMux :=
  ServeMux_Handle "/examplereverseproxy/" (logger proxy) routes_before_proxy.

(** The handler [New] gives to [h2c.NewHandler]. *)
Definition root_handler (proxy : Handler) : Handler :=
  upgradeHandler (ServeMux_ServeHTTP (routes proxy)) grpcServer.

(** [New(ctx, log, config)]. [log0] is what the logger has put out before the
    call. The handler given to [h2c.NewHandler] is the one every request is
    served by, whichever way the connection reached HTTP/2. *)
Definition New (log0 : list LogRecord) (cfg : Config) : server * outcome (result built) :=
  let s := new_server log0 cfg in
  match RegisterAPIHandlerFromEndpoint with
  | Some err => (s, Returned (Err (wrapError "failed to register gateway" err)))
  | None =>
      match mustReverseProxy s (ExampleReverseProxyURL cfg) with
      | (s', Panicked v) => (s', Panicked v)
      | (s', Returned proxy) =>
          (s', Returned (Ok (mkBuilt s' (routes proxy)
                 (mkHttpServer (httpAddr (config s')) (root_handler proxy)))))
      end
  end.

End Construction.

(** ** The life cycle: [ListenAndServe] and the goroutine [listenAndServe]

    The two functions run concurrently and meet at the unbuffered channel
    [httpClosed]. Each is cut at its calls and atomic operations; a state
    holds where each of them stands. The monitors started by
    [ListenAndServe] are defined in another file of the package and take no
    step here. *)

(** [atomic.Bool.CompareAndSwap(old, new)] on the current value. *)
Definition CompareAndSwap (old new cur : bool) : bool :=
  if Bool.eqb cur old then new else cur.

Definition with_httpServerAvailable (b : bool) (s : server) : server :=
  mkServer (config s) (log s) (live s) (ready s) (shutdownRequested s) b
           (databaseAvailable s).

Definition with_shutdownRequested (b : bool) (s : server) : server :=
  mkServer (config s) (log s) (live s) (ready s) b (httpServerAvailable s)
           (databaseAvailable s).

(** What the outside answers to the calls of the two functions; [None] is a
    nil error. *)
Record Env : Type := mkEnv {
  net_Listen : option error;
  db_Connect : option error;
  migrations_Migrate : option error;
  httpServer_Shutdown : option error
}.

(** Where [listenAndServe] stands. *)
Inductive listener_pc : Type :=
| L_store                        (* before httpServerAvailable.Store(true) *)
| L_listen                       (* before net.Listen *)
| L_bind_failed (err : error)    (* net.Listen failed, before the log call *)
| L_send_bind                    (* at httpClosed <- true after the bind failure *)
| L_serving                      (* inside httpServer.Serve(lis) *)
| L_serve_failed (err : error)   (* Serve returned err, not ErrServerClosed *)
| L_cas                          (* before CompareAndSwap(true, false) *)
| L_send_serve                   (* at httpClosed <- true after the Serve error *)
| L_done_bind                    (* returned after the bind failure *)
| L_done_serve                   (* returned after the Serve error *)
| L_done_closed.                 (* returned, Serve gave ErrServerClosed *)

(** The [return] statements of [ListenAndServe]. *)
Inductive return_site : Type :=
| R_connect (err : error)        (* failed to connect to database *)
| R_migrate                      (* return nil after the migration failure *)
| R_closed                       (* return nil in case <-s.httpClosed *)
| R_shutdown_err (err : error)   (* error during http server shutdown *)
| R_shutdown_ok.                 (* return nil after Shutdown *)

(** Where [ListenAndServe] stands, the four [go] statements behind it. *)
Inductive main_pc : Type :=
| M_connect                      (* before s.db.Connect() *)
| M_migrate                      (* before migrations.Migrate *)
| M_migrate_failed (err : error) (* Migrate failed, before the log call *)
| M_select                       (* at the select *)
| M_closed_log                   (* case <-s.httpClosed, before the log call *)
| M_closed_cas
| M_ctx_log                      (* case <-s.ctx.Done(), before the log call *)
| M_ctx_cas_available
| M_ctx_cas_shutdown
| M_shutdown                     (* before s.httpServer.Shutdown(ctx) *)
| M_shutdown_log                 (* Shutdown gave nil, before the log call *)
| M_returned (site : return_site).

(** The value [ListenAndServe] returns at each site. *)
Definition return_value (site : return_site) : option error :=
  match site with
  | R_connect err => Some (wrapError "failed to connect to database" err)
  | R_migrate => None
  | R_closed => None
  | R_shutdown_err err => Some (wrapError "error during http server shutdown" err)
  | R_shutdown_ok => None
  end.

Record lifecycle : Type := mkLifecycle {
  lc_server : server;
  lc_listener : listener_pc;
  lc_main : main_pc;
  (** [ctx.Err()]: [None] until the context is cancelled *)
  lc_ctxErr : option error;
  (** the listening socket exists and is open *)
  lc_bound : bool;
  (** [Shutdown] has been called on the [http.Server] *)
  lc_inShutdown : bool;
  (** requests accepted and handed to the handler so far *)
  lc_served : nat
}.

Definition lifecycle_init (s : server) : lifecycle :=
  mkLifecycle s L_store M_connect None false false 0.

(** The result of [ListenAndServe], once it has returned. *)
Definition ListenAndServe_result (st : lifecycle) : option (option error) :=
  match lc_main st with
  | M_returned site => Some (return_value site)
  | _ => None
  end.

Definition set_server (s : server) (st : lifecycle) : lifecycle :=
  mkLifecycle s (lc_listener st) (lc_main st) (lc_ctxErr st) (lc_bound st)
              (lc_inShutdown st) (lc_served st).
Definition set_listener (pc : listener_pc) (st : lifecycle) : lifecycle :=
  mkLifecycle (lc_server st) pc (lc_main st) (lc_ctxErr st) (lc_bound st)
              (lc_inShutdown st) (lc_served st).
Definition set_main (pc : main_pc) (st : lifecycle) : lifecycle :=
  mkLifecycle (lc_server st) (lc_listener st) pc (lc_ctxErr st) (lc_bound st)
              (lc_inShutdown st) (lc_served st).
Definition set_bound (b : bool) (st : lifecycle) : lifecycle :=
  mkLifecycle (lc_server st) (lc_listener st) (lc_main st) (lc_ctxErr st) b
              (lc_inShutdown st) (lc_served st).

(** The next statement of [listenAndServe]; [None] when it is blocked or has
    returned. *)
Definition listenAndServe (env : Env) (st : lifecycle) : option lifecycle :=
  let s := lc_server st in
  match lc_listener st with
  | L_store =>
      Some (set_listener L_listen (set_server (with_httpServerAvailable true s) st))
  | L_listen =>
      match net_Listen env with
      | Some err => Some (set_listener (L_bind_failed err) st)
      | None => Some (set_listener L_serving (set_bound true st))
      end
  | L_bind_failed err =>
      Some (set_listener L_send_bind
             (set_server
                (server_logf LevelError "Failed to listen"
                   [("err", anyError err); ("addr", anyString (httpAddr (config s)))] s)
                st))
  | L_serving =>
      (* Serve returns ErrServerClosed once Shutdown has been called *)
      if lc_inShutdown st then Some (set_listener L_done_closed (set_bound false st))
      else None
  | L_serve_failed err =>
      Some (set_listener L_cas
             (set_server
                (server_logf LevelError "Unexpected http server error"
                   [("err", anyError err); ("addr", anyString (httpAddr (config s)))] s)
                st))
  | L_cas =>
      Some (set_listener L_send_serve
             (set_server
                (with_httpServerAvailable
                   (CompareAndSwap true false (httpServerAvailable s)) s) st))
  | L_send_bind | L_send_serve | L_done_bind | L_done_serve | L_done_closed => None
  end.

(** The next statement of [ListenAndServe] outside the [select]. *)
Definition ListenAndServe (env : Env) (st : lifecycle) : option lifecycle :=
  let s := lc_server st in
  match lc_main st with
  | M_connect =>
      match db_Connect env with
      | Some err => Some (set_main (M_returned (R_connect err)) st)
      | None => Some (set_main M_migrate st)
      end
  | M_migrate =>
      match migrations_Migrate env with
      | Some err => Some (set_main (M_migrate_failed err) st)
      | None => Some (set_main M_select st)
      end
  | M_migrate_failed err =>
      Some (set_main (M_returned R_migrate)
             (set_server
                (server_logf LevelError "db migration failed" [("err", anyError err)] s)
                st))
  | M_select => None
  | M_closed_log =>
      Some (set_main M_closed_cas
             (set_server (server_logf LevelInfo "http server closed" [] s) st))
  | M_closed_cas =>
      Some (set_main (M_returned R_closed)
             (set_server
                (with_httpServerAvailable
                   (CompareAndSwap true false (httpServerAvailable s)) s) st))
  | M_ctx_log =>
      match lc_ctxErr st with
      | Some e =>
          Some (set_main M_ctx_cas_available
                 (set_server
                    (server_logf LevelInfo "shutdown signal received"
                       [("signal", anyError e)] s) st))
      | None => None
      end
  | M_ctx_cas_available =>
      Some (set_main M_ctx_cas_shutdown
             (set_server
                (with_httpServerAvailable
                   (CompareAndSwap true false (httpServerAvailable s)) s) st))
  | M_ctx_cas_shutdown =>
      Some (set_main M_shutdown
             (set_server
                (with_shutdownRequested
                   (CompareAndSwap false true (shutdownRequested s)) s) st))
  | M_shutdown =>
      (* Shutdown closes the listener and makes Serve return *)
      let st' := mkLifecycle s (lc_listener st) (lc_main st) (lc_ctxErr st)
                             false true (lc_served st) in
      match httpServer_Shutdown env with
      | Some err => Some (set_main (M_returned (R_shutdown_err err)) st')
      | None => Some (set_main M_shutdown_log st')
      end
  | M_shutdown_log =>
      Some (set_main (M_returned R_shutdown_ok)
             (set_server
                (server_logf LevelInfo "http server shutdown gracefully" [] s) st))
  | M_returned _ => None
  end.

(** What can happen next. *)
Inductive event : Type :=
| ev_listener                    (* listenAndServe runs its next statement *)
| ev_main                        (* ListenAndServe runs its next statement *)
| ev_httpClosed                  (* the select receives what listenAndServe sends *)
| ev_ctxDone                     (* the select takes case <-s.ctx.Done() *)
| ev_cancel (err : error)        (* the context is cancelled *)
| ev_serve_error (err : error)   (* Serve fails with err, not ErrServerClosed *)
| ev_request.                    (* Serve accepts a request and serves it *)

Definition step (env : Env) (ev : event) (st : lifecycle) : option lifecycle :=
  match ev with
  | ev_listener => listenAndServe env st
  | ev_main => ListenAndServe env st
  | ev_httpClosed =>
      match lc_main st, lc_listener st with
      | M_select, L_send_bind => Some (set_main M_closed_log (set_listener L_done_bind st))
      | M_select, L_send_serve => Some (set_main M_closed_log (set_listener L_done_serve st))
      | _, _ => None
      end
  | ev_ctxDone =>
      match lc_main st, lc_ctxErr st with
      | M_select, Some _ => Some (set_main M_ctx_log st)
      | _, _ => None
      end
  | ev_cancel err =>
      match lc_ctxErr st with
      | None =>
          Some (mkLifecycle (lc_server st) (lc_listener st) (lc_main st) (Some err)
                            (lc_bound st) (lc_inShutdown st) (lc_served st))
      | Some _ => None
      end
  | ev_serve_error err =>
      match lc_listener st with
      | L_serving =>
          if lc_inShutdown st then None
          else Some (set_listener (L_serve_failed err) (set_bound false st))
      | _ => None
      end
  | ev_request =>
      match lc_listener st with
      | L_serving =>
          if lc_bound st && negb (lc_inShutdown st)
          then Some (mkLifecycle (lc_server st) (lc_listener st) (lc_main st)
                                 (lc_ctxErr st) (lc_bound st) (lc_inShutdown st)
                                 (S (lc_served st)))
          else None
      | _ => None
      end
  end.

(** A schedule run from a state; [None] when one of its events cannot
    happen. *)
Fixpoint exec (env : Env) (evs : list event) (st : lifecycle) : option lifecycle :=
  match evs with
  | [] => Some st
  | ev :: evs' =>
      match step env ev st with
      | Some st' => exec env evs' st'
      | None => None
      end
  end.

(** The states that some schedule reaches from the call of
    [ListenAndServe] on the server [s0]. *)
Inductive reachable (env : Env) (s0 : server) : lifecycle -> Prop :=
| reach_init : reachable env s0 (lifecycle_init s0)
| reach_step st ev st' :
    reachable env s0 st -> step env ev st = Some st' -> reachable env s0 st'.

(** *** Program points

    Classes of program points used to state what holds where. *)

(** [listenAndServe] is past [httpServerAvailable.Store(true)]. *)
Definition listener_has_stored (pc : listener_pc) : bool :=
  match pc with
  | L_store => false
  | _ => true
  end.

(** [listenAndServe] is past its own [CompareAndSwap(true, false)]. *)
Definition listener_has_reset (pc : listener_pc) : bool :=
  match pc with
  | L_send_serve | L_done_serve => true
  | _ => false
  end.

(** [listenAndServe] has seen [net.Listen] fail. *)
Definition listener_bind_failed (pc : listener_pc) : bool :=
  match pc with
  | L_bind_failed _ | L_send_bind | L_done_bind => true
  | _ => false
  end.


(** [listenAndServe] has sent on [httpClosed]. *)
Definition listener_sent (pc : listener_pc) : bool :=
  match pc with
  | L_done_bind | L_done_serve => true
  | _ => false
  end.

(** [ListenAndServe] is in [case <-s.httpClosed]. *)
Definition main_received (pc : main_pc) : bool :=
  match pc with
  | M_closed_log | M_closed_cas | M_returned R_closed => true
  | _ => false
  end.

(** [ListenAndServe] is in [case <-s.ctx.Done()]. *)
Definition main_in_ctx_case (pc : main_pc) : bool :=
  match pc with
  | M_ctx_log | M_ctx_cas_available | M_ctx_cas_shutdown | M_shutdown
  | M_shutdown_log | M_returned (R_shutdown_err _) | M_returned R_shutdown_ok => true
  | _ => false
  end.

(** [ListenAndServe] is past one of its [CompareAndSwap(true, false)] on
    [httpServerAvailable]. *)
Definition main_has_reset (pc : main_pc) : bool :=
  match pc with
  | M_returned R_closed | M_ctx_cas_shutdown | M_shutdown | M_shutdown_log
  | M_returned (R_shutdown_err _) | M_returned R_shutdown_ok => true
  | _ => false
  end.

(** [ListenAndServe] is past [shutdownRequested.CompareAndSwap(false, true)]. *)
Definition main_requested_shutdown (pc : main_pc) : bool :=
  match pc with
  | M_shutdown | M_shutdown_log
  | M_returned (R_shutdown_err _) | M_returned R_shutdown_ok => true
  | _ => false
  end.

(** [ListenAndServe] is past the call of [Shutdown]. *)
Definition main_called_Shutdown (pc : main_pc) : bool :=
  match pc with
  | M_shutdown_log | M_returned (R_shutdown_err _) | M_returned R_shutdown_ok => true
  | _ => false
  end.

(** What the program points say about [httpServerAvailable], [flag0] being
    its value at the start: nothing when [ListenAndServe] may have run its
    [CompareAndSwap] before the store of [listenAndServe]. *)
Definition expected_available (flag0 : bool) (l : listener_pc) (m : main_pc)
    : option bool :=
  if negb (listener_has_stored l)
  then Some (if main_has_reset m then false else flag0)
  else if listener_has_reset l then Some false
  else match m with
       | M_returned R_closed => Some false
       | _ => if main_has_reset m then None else Some true
       end.

(** The records the two functions write for the failures they see. *)
Definition bind_failure_record (addr : string) (err : error) : LogRecord :=
  mkLogRecord LevelError "Failed to listen"
    [("err", anyError err); ("addr", anyString addr)].

Definition migration_failure_record (err : error) : LogRecord :=
  mkLogRecord LevelError "db migration failed" [("err", anyError err)].

(** What holds in every state the two functions can be in together. *)
Definition lifecycle_inv (env : Env) (s0 : server) (st : lifecycle) : Prop :=
  let s := lc_server st in
  let l := lc_listener st in
  let m := lc_main st in
  config s = config s0
  /\ match expected_available (httpServerAvailable s0) l m with
     | Some v => httpServerAvailable s = v
     | None => True
     end
  /\ shutdownRequested s
     = (if main_requested_shutdown m then true else shutdownRequested s0)
  /\ lc_inShutdown st = main_called_Shutdown m
  /\ (lc_bound st = true -> l = L_serving)
  /\ (l = L_serving -> lc_inShutdown st = false -> lc_bound st = true)
  /\ listener_sent l = main_received m
  /\ match l with
     | L_store | L_listen => True
     | L_bind_failed e => net_Listen env = Some e
     | L_send_bind | L_done_bind =>
         exists e, net_Listen env = Some e
                   /\ In (bind_failure_record (httpAddr (config s0)) e) (log s)
     | _ => net_Listen env = None
     end
  /\ match m with
     | M_connect => True
     | M_returned (R_connect e) => db_Connect env = Some e
     | M_migrate => db_Connect env = None
     | M_migrate_failed e => db_Connect env = None /\ migrations_Migrate env = Some e
     | M_returned R_migrate =>
         db_Connect env = None
         /\ exists e, migrations_Migrate env = Some e
                      /\ In (migration_failure_record e) (log s)
     | M_returned (R_shutdown_err e) =>
         db_Connect env = None /\ migrations_Migrate env = None
         /\ httpServer_Shutdown env = Some e
     | M_shutdown_log | M_returned R_shutdown_ok =>
         db_Connect env = None /\ migrations_Migrate env = None
         /\ httpServer_Shutdown env = None
     | _ => db_Connect env = None /\ migrations_Migrate env = None
     end
  /\ (main_in_ctx_case m = true -> lc_ctxErr st <> None)
  /\ (lc_served st <> 0%nat -> net_Listen env = None).


(** [ListenAndServe] has returned. *)
Definition returned (st : lifecycle) : Prop := ListenAndServe_result st <> None.


(** A bind failure, and nothing else going wrong. *)
Definition env_bind_fails : Env :=
  mkEnv (Some (errorString "listen tcp: address already in use")) None None None.

(** ** Instances to run the code on

    Small stand-ins for the library routines and the collaborators, used
    where a statement is evaluated on a concrete request. The theorems
    quantify over every instance. *)

Module Examples.

(** The value of a character of the standard base64 alphabet. *)
Definition b64_value (c : ascii) : option Z :=
  let n := Z.of_N (N_of_ascii c) in
  if (65 <=? n)%Z && (n <=? 90)%Z then Some (n - 65)%Z
  else if (97 <=? n)%Z && (n <=? 122)%Z then Some (n - 71)%Z
  else if (48 <=? n)%Z && (n <=? 57)%Z then Some (n + 4)%Z
  else if (n =? 43)%Z then Some 62%Z
  else if (n =? 47)%Z then Some 63%Z
  else None.

Definition byte_of (z : Z) : ascii := ascii_of_N (Z.to_N (z mod 256)).

Definition is_pad (c : ascii) : bool := Ascii.eqb c "="%char.

(** Padded base64 text without line breaks, four characters at a time. *)
Fixpoint b64_quanta (l : list ascii) : option (list ascii) :=
  match l with
  | [] => Some []
  | a :: b :: c :: d :: rest =>
      match b64_value a, b64_value b with
      | Some x, Some y =>
          let v2 := (Z.shiftl x 18 + Z.shiftl y 12)%Z in
          if is_pad c && is_pad d then
            match rest with
            | [] => Some [byte_of (Z.shiftr v2 16)]
            | _ => None
            end
          else
            match b64_value c with
            | Some z =>
                let v3 := (v2 + Z.shiftl z 6)%Z in
                if is_pad d then
                  match rest with
                  | [] => Some [byte_of (Z.shiftr v3 16); byte_of (Z.shiftr v3 8)]
                  | _ => None
                  end
                else
                  match b64_value d, b64_quanta rest with
                  | Some t, Some out =>
                      let v := (v3 + t)%Z in
                      Some (byte_of (Z.shiftr v 16) :: byte_of (Z.shiftr v 8)
                              :: byte_of v :: out)
                  | _, _ => None
                  end
            | None => None
            end
      | _, _ => None
      end
  | _ => None
  end.

Definition b64_decode (s : string) : option string :=
  string_of_list_ascii <$> b64_quanta (list_ascii_of_string s).

(** A URL printed without escaping. *)
Definition print_URL (u : url_URL) : string :=
  (if String.eqb (Scheme u) EmptyString then EmptyString else Scheme u +:+ "://")
  +:+ match User u with
      | Some ui =>
          username ui +:+ (if passwordSet ui then ":" +:+ password ui else EmptyString) +:+ "@"
      | None => EmptyString
      end
  +:+ Host u +:+ Path u
  +:+ (if String.eqb (RawQuery u) EmptyString then EmptyString else "?" +:+ RawQuery u)
  +:+ (if String.eqb (Fragment u) EmptyString then EmptyString else "#" +:+ Fragment u).

(** Where [sep] first occurs in [s]. *)
Fixpoint find_sub (sep s : string) : option nat :=
  if String.prefix sep s then Some 0%nat
  else match s with
       | EmptyString => None
       | String _ s' => S <$> find_sub sep s'
       end.

(** URLs of the form scheme://host/path; anything else is taken as a path. *)
Definition parse_simple (raw : string) : result url_URL :=
  match find_sub "://" raw with
  | Some i =>
      let rest := substring (i + 3) (String.length raw - (i + 3)) raw in
      let '(host, path, found) := strings_Cut rest "/"%char in
      Ok (mkURL (substring 0 i raw) None host
                (if found then "/" +:+ path else EmptyString) EmptyString EmptyString EmptyString)
  | None => Ok (mkURL EmptyString None EmptyString raw EmptyString EmptyString EmptyString)
  end.

(** A redirect: the [Location] header and the status. *)
Definition redirect (url : string) (code : Z) : Handler :=
  fun _ => on_rw (fun w => WriteHeader code (w_Header_Set "Location" url w)).

#[export] Instance lib : NetLib := {|
  URL_String := print_URL;
  base64_DecodeString := b64_decode;
  url_Parse_checked := parse_simple;
  RedirectHandler := redirect
|}.

(** A terminal handler that answers 200 with its own name as the body. *)
Definition answer (name : string) : Handler :=
  fun _ => on_rw (Write name).

#[export] Instance col : Collaborators := {|
  grpcServer := answer "grpc";
  grpcMux := answer "gateway";
  staticFileServer := answer "static";
  promhttp_Handler := answer "metrics";
  ReverseProxy_ServeHTTP := fun u => answer ("proxy to " +:+ print_URL u);
  RegisterAPIHandlerFromEndpoint := None
|}.

Definition cfg : Config :=
  mkConfig "localhost" 8080 5 10 "postgres" "pgpass" "localhost" 5432 "gonfoot"
           "public" "admin" "s3cret" "http://upstream.example/base".

(** The same configuration with a tab in the proxy URL. *)
Definition cfg_with_tab : Config :=
  mkConfig "localhost" 8080 5 10 "postgres" "pgpass" "localhost" 5432 "gonfoot"
           "public" "admin" "s3cret"
           ("http://up" +:+ String (ascii_of_nat 9) "stream.example").

Definition get (path : string) (hdr : http_Header) : Request :=
  mkRequest "GET" (mkURL EmptyString None EmptyString path EmptyString EmptyString EmptyString) 1 1 hdr path.

(** A server as [New] leaves it, with the flag [ready] as given. *)
Definition server_with_ready (b : bool) : server :=
  mkServer (newServerConfig cfg) [] false b false false false.

Definition fresh (s : server) : World := mkWorld s newResponseWriter.

Definition no_header : http_Header := ∅.

(** The header [Authorization: Basic YWRtaW46czNjcmV0], admin:s3cret. *)
Definition good_auth : http_Header := {[ "Authorization" := ["Basic YWRtaW46czNjcmV0"] ]}.
(** admin:wrong *)
Definition bad_auth : http_Header := {[ "Authorization" := ["Basic YWRtaW46d3Jvbmc="] ]}.

End Examples.


(** ** Notions used to state what the package keeps *)

(** The five health flags of a server, in the order of the struct. *)
Definition health (s : server) : bool * bool * bool * bool * bool :=
  (live s, ready s, shutdownRequested s, httpServerAvailable s, databaseAvailable s).

(** A handler that writes no health flag, leaves the configuration alone and
    only appends to the log. *)
Definition keeps_server (h : Handler) : Prop :=
  forall r w,
    health (srv (h r w)) = health (srv w)
    /\ config (srv (h r w)) = config (srv w)
    /\ exists l, log (srv (h r w)) = (log (srv w) ++ l)%list.

(** The URL with the password of its user information set to [p]; a URL
    without user information is left as it is. *)
Definition with_password (p : string) (u : url_URL) : url_URL :=
  match User u with
  | Some ui => with_User (Some (mkUserinfo (username ui) p true)) u
  | None => u
  end.

(** The request with its URL replaced. *)
Definition with_URL (u : url_URL) (r : Request) : Request :=
  mkRequest (Method r) u (ProtoMajor r) (ProtoMinor r) (Header r) (RequestURI r).

(** The events in which [listenAndServe] takes no part. *)
Definition main_side (ev : event) : bool :=
  match ev with
  | ev_main | ev_ctxDone | ev_cancel _ => true
  | _ => false
  end.

Section Rejection.
Context `{lib : NetLib}.

(** The world a request rejected by [requireBasicAuth] leaves behind, [user]
    being the user name the gate logs. *)
Definition unauthorized (user : string) (r : Request) (w : World) : World :=
  mkWorld (server_logf LevelInfo "unauthorized request"
             (request_attrs r ++ [("user", anyString user)])%list (srv w))
          (http_Error "Unauthorized" StatusUnauthorized
             (w_Header_Set "WWW-Authenticate" basicRealm (rw w))).

End Rejection.

(** A rooted path that none of the patterns registered by [New] besides "/"
    claims, neither as it is nor with a slash added. *)
Definition unclaimed (p : string) : Prop :=
  strings_HasPrefix p "/" = true
  /\ p <> "/favicon.ico" /\ p <> "/metrics"
  /\ p <> "/static" /\ strings_HasPrefix p "/static/" = false
  /\ p <> "/api" /\ strings_HasPrefix p "/api/" = false
  /\ p <> "/examplereverseproxy"
  /\ strings_HasPrefix p "/examplereverseproxy/" = false.

(** From the state, [ListenAndServe] can be brought to a [return] by events
    in which [listenAndServe] takes no part. *)
Definition returns_without_listener (env : Env) (st : lifecycle) : Prop :=
  exists evs st',
    exec env evs st = Some st' /\ returned st' /\ forallb main_side evs = true.

(** The configuration of the examples with a colon in the user name. *)
Definition cfg_colon_user : Config :=
  mkConfig "localhost" 8080 5 10 "postgres" "pgpass" "localhost" 5432 "gonfoot"
           "public" "ops:admin" "s3cret" "http://upstream.example/base".

(** The header [Authorization: bAsIc YWRtaW46czNjcmV0]. *)
Definition mixed_case_auth : http_Header :=
  {[ "Authorization" := ["bAsIc YWRtaW46czNjcmV0"] ]}.

(** The header [Authorization: Bearer abc]. *)
Definition bearer_auth : http_Header := {[ "Authorization" := ["Bearer abc"] ]}.

(** * Properties *)

(** ** Bytes and the constant-time comparison *)

Lemma byte_log2 (a : Z) : 0 <= a < 256 -> Z.log2 a < 8.
Proof.
  intros [H0 H1].
  destruct (Z.eq_dec a 0) as [->|Hne]; [reflexivity|].
  apply Z.log2_lt_pow2; lia.
Qed.

Lemma byte_of_log2 (a : Z) : 0 <= a -> Z.log2 a < 8 -> 0 <= a < 256.
Proof.
  intros H0 Hl. split; [assumption|].
  destruct (Z.eq_dec a 0) as [->|Hne]; [lia|].
  change 256 with (2 ^ 8). apply Z.log2_lt_pow2; lia.
Qed.

Lemma byte_lxor (a b : Z) : 0 <= a < 256 -> 0 <= b < 256 -> 0 <= Z.lxor a b < 256.
Proof.
  intros Ha Hb.
  assert (H0 : 0 <= Z.lxor a b) by (apply Z.lxor_nonneg; lia).
  apply byte_of_log2; [assumption|].
  pose proof (Z.log2_lxor a b ltac:(lia) ltac:(lia)).
  pose proof (byte_log2 a Ha). pose proof (byte_log2 b Hb). lia.
Qed.

Lemma byte_lor (a b : Z) : 0 <= a < 256 -> 0 <= b < 256 -> 0 <= Z.lor a b < 256.
Proof.
  intros Ha Hb.
  assert (H0 : 0 <= Z.lor a b) by (apply Z.lor_nonneg; lia).
  apply byte_of_log2; [assumption|].
  rewrite Z.log2_lor by lia.
  pose proof (byte_log2 a Ha). pose proof (byte_log2 b Hb). lia.
Qed.

Lemma ConstantTimeByteEq_zero (v : Z) :
  0 <= v < 256 -> ConstantTimeByteEq v 0 = (if Z.eqb v 0 then 1 else 0).
Proof.
  intros Hv. unfold ConstantTimeByteEq. rewrite Z.lxor_0_r.
  destruct (Z.eqb_spec v 0) as [->|Hne]; [reflexivity|].
  rewrite Z.mod_small by lia.
  rewrite Z.shiftr_div_pow2 by lia.
  apply Z.div_small. lia.
Qed.

Lemma bytes_range (s : string) : Forall (fun b => 0 <= b < 256) (bytes s).
Proof.
  unfold bytes. apply List.Forall_forall. intros b Hb.
  apply in_map_iff in Hb as (c & <- & _).
  pose proof (N_ascii_bounded c). lia.
Qed.

Lemma bytes_inj (s t : string) : bytes s = bytes t -> s = t.
Proof.
  revert t. induction s as [|c s IH]; intros [|d t] H; simpl in H;
    try discriminate; [reflexivity|].
  injection H as Hc Hs. f_equal; [|apply IH; exact Hs].
  apply N2Z.inj in Hc.
  rewrite <- (ascii_N_embedding c), <- (ascii_N_embedding d). congruence.
Qed.

Lemma xor_accumulate_spec (x : list Z) :
  forall (y : list Z) (v : Z),
    length x = length y ->
    Forall (fun b => 0 <= b < 256) x -> Forall (fun b => 0 <= b < 256) y ->
    0 <= v < 256 ->
    0 <= xor_accumulate v x y < 256
    /\ (xor_accumulate v x y = 0 <-> v = 0 /\ x = y).
Proof.
  induction x as [|a x IH]; intros [|b y] v Hlen Hx Hy Hv; simpl in *;
    try discriminate.
  - split; [assumption|]. split; [intros ->; auto | intros [-> _]; reflexivity].
  - inversion Hx as [|? ? Ha Hx']; inversion Hy as [|? ? Hb Hy']; subst.
    injection Hlen as Hlen.
    pose proof (byte_lxor a b Ha Hb) as Hab.
    pose proof (byte_lor v (Z.lxor a b) Hv Hab) as Hv'.
    destruct (IH y (Z.lor v (Z.lxor a b)) Hlen Hx' Hy' Hv') as [Hr Hz].
    split; [exact Hr|].
    rewrite Hz, Z.lor_eq_0_iff, Z.lxor_eq_0_iff.
    split.
    + intros [[-> ->] ->]. auto.
    + intros [-> Heq]. injection Heq as -> ->. auto.
Qed.

(** [ConstantTimeCompare] answers 1 exactly on equal strings. *)
Lemma ConstantTimeCompare_bytes (s t : string) :
  ConstantTimeCompare (bytes s) (bytes t) = (if String.eqb s t then 1 else 0).
Proof.
  unfold ConstantTimeCompare.
  destruct (Nat.eqb_spec (length (bytes s)) (length (bytes t))) as [Hlen|Hlen]; simpl.
  - destruct (xor_accumulate_spec (bytes s) (bytes t) 0 Hlen
                (bytes_range s) (bytes_range t) ltac:(lia)) as [Hr Hz].
    rewrite ConstantTimeByteEq_zero by exact Hr.
    destruct (String.eqb_spec s t) as [->|Hne].
    + replace (xor_accumulate 0 (bytes t) (bytes t)) with 0; [reflexivity|].
      symmetry. apply Hz. auto.
    + destruct (Z.eqb_spec (xor_accumulate 0 (bytes s) (bytes t)) 0) as [H0|H0];
        [|reflexivity].
      apply Hz in H0 as [_ Hb]. apply bytes_inj in Hb. contradiction.
  - destruct (String.eqb_spec s t) as [->|Hne]; [contradiction|reflexivity].
Qed.

(** ** The response writer *)

Lemma http_Error_fresh (err : string) (code : Z) (w : ResponseWriter) :
  w_wrote w = None ->
  w_status (http_Error err code w) = Some code
  /\ w_sentHeader (http_Error err code w)
     = Some (Header_Set "X-Content-Type-Options" "nosniff"
               (Header_Set "Content-Type" "text/plain; charset=utf-8" (w_Header w)))
  /\ w_body (http_Error err code w) = w_body w +:+ (err +:+ newline).
Proof.
  intros Hw. unfold http_Error, Write, WriteHeader, w_status, w_sentHeader.
  simpl. rewrite Hw. simpl. auto.
Qed.

(** ** The protocol switch *)

Lemma upgradeHandler_grpc (base upgrade : Handler) (r : Request) (w : World) :
  ProtoMajor r = 2 ->
  Header_Get (Header r) "Content-Type" = "application/grpc" ->
  upgradeHandler base upgrade r w = upgrade r w.
Proof.
  intros Hp Hc. unfold upgradeHandler. rewrite Hp, Hc. reflexivity.
Qed.

Lemma upgradeHandler_http (base upgrade : Handler) (r : Request) (w : World) :
  ~ (ProtoMajor r = 2 /\ Header_Get (Header r) "Content-Type" = "application/grpc") ->
  upgradeHandler base upgrade r w = base r w.
Proof.
  intros Hn. unfold upgradeHandler.
  destruct (Z.eqb_spec (ProtoMajor r) 2) as [Hp|Hp]; [|reflexivity].
  destruct (String.eqb_spec (Header_Get (Header r) "Content-Type") "application/grpc")
    as [Hc|Hc]; [|reflexivity].
  exfalso. apply Hn. auto.
Qed.

(** C2. The protocol switch hands a request to the gRPC server exactly when
    the request is HTTP/2 and the first value of its Content-Type header is
    "application/grpc"; every other request, HTTP/2 with another content type
    and every request that is not HTTP/2, goes to the HTTP handler chain.
    "Hands to" is read over all pairs of handlers: the switch behaves as
    [upgrade] whatever the two handlers are. *)
Theorem upgradeHandler_demux (r : Request) :
  ((forall base upgrade w, upgradeHandler base upgrade r w = upgrade r w)
   <-> (ProtoMajor r = 2
        /\ Header_Get (Header r) "Content-Type" = "application/grpc"))
  /\ ((forall base upgrade w, upgradeHandler base upgrade r w = base r w)
      <-> ~ (ProtoMajor r = 2
             /\ Header_Get (Header r) "Content-Type" = "application/grpc"))
  /\ (ProtoMajor r <> 2 ->
      forall base upgrade w, upgradeHandler base upgrade r w = base r w).
Proof.
  set (w0 := mkWorld (mkServer (mkServerConfig
        (mkConfig EmptyString 0 0 0 EmptyString EmptyString EmptyString 0 EmptyString EmptyString EmptyString EmptyString EmptyString) EmptyString EmptyString 0 0) [] false false false false false)
        newResponseWriter).
  assert (Hdec : (ProtoMajor r = 2
                  /\ Header_Get (Header r) "Content-Type" = "application/grpc")
                 \/ ~ (ProtoMajor r = 2
                       /\ Header_Get (Header r) "Content-Type" = "application/grpc")).
  { destruct (Z.eq_dec (ProtoMajor r) 2);
      destruct (String.eqb_spec (Header_Get (Header r) "Content-Type") "application/grpc");
      tauto. }
  split; [|split].
  - split.
    + intros Hall. destruct Hdec as [Hy|Hn]; [exact Hy|].
      specialize (Hall (fun _ w => w) (fun _ => on_rw (WriteHeader StatusOK)) w0).
      rewrite upgradeHandler_http in Hall by exact Hn.
      discriminate Hall.
    + intros [Hp Hc] base upgrade w. apply upgradeHandler_grpc; assumption.
  - split.
    + intros Hall [Hp Hc].
      specialize (Hall (fun _ w => w) (fun _ => on_rw (WriteHeader StatusOK)) w0).
      rewrite upgradeHandler_grpc in Hall by assumption.
      discriminate Hall.
    + intros Hn base upgrade w. apply upgradeHandler_http. exact Hn.
  - intros Hp base upgrade w. apply upgradeHandler_http. tauto.
Qed.

(** C10. The content type is compared with "application/grpc" by string
    equality: an HTTP/2 request whose Content-Type is "application/grpc+proto"
    or "application/grpc+json", or any other string that differs from
    "application/grpc", goes to the HTTP handler chain and not to the gRPC
    server. *)
Theorem upgradeHandler_exact_content_type
    (r : Request) (base upgrade : Handler) (w : World) :
  ProtoMajor r = 2 ->
  (Header_Get (Header r) "Content-Type" = "application/grpc+proto"
   \/ Header_Get (Header r) "Content-Type" = "application/grpc+json"
   \/ Header_Get (Header r) "Content-Type" <> "application/grpc") ->
  upgradeHandler base upgrade r w = base r w.
Proof.
  intros _ Hct. apply upgradeHandler_http. intros [_ Hc].
  rewrite Hc in Hct. destruct Hct as [H|[H|H]]; [discriminate H|discriminate H|].
  apply H. reflexivity.
Qed.

Lemma upgradeHandler_exact_content_type_witness :
  let r := mkRequest "POST" (mkURL EmptyString None EmptyString "/gonfoot.API/ExampleGet" EmptyString EmptyString EmptyString) 2 0
             {[ "Content-Type" := ["application/grpc+proto"] ]} "/gonfoot.API/ExampleGet" in
  let w := Examples.fresh (Examples.server_with_ready true) in
  ProtoMajor r = 2
  /\ Header_Get (Header r) "Content-Type" = "application/grpc+proto"
  /\ upgradeHandler (Examples.answer "http") (Examples.answer "grpc") r w
     = Examples.answer "http" r w.
Proof.
  intros r w. split; [reflexivity|]. split; [reflexivity|].
  apply (upgradeHandler_exact_content_type r); [reflexivity|].
  left. reflexivity.
Defined.

(** ** The gates *)

Section Gates.
Context `{lib : NetLib}.

(** The world a request rejected by the readiness gate leaves behind. *)
Lemma onlyWhenReady_not_ready (handler : Handler) (r : Request) (w : World) :
  ready (srv w) = false ->
  onlyWhenReady handler r w
  = mkWorld (server_logf LevelInfo "service called when not ready"
               (request_attrs r) (srv w))
            (http_Error "service not ready" StatusServiceUnavailable (rw w)).
Proof. intros Hr. unfold onlyWhenReady. rewrite Hr. reflexivity. Qed.

Lemma onlyWhenReady_ready (handler : Handler) (r : Request) (w : World) :
  ready (srv w) = true -> onlyWhenReady handler r w = handler r w.
Proof. intros Hr. unfold onlyWhenReady. rewrite Hr. reflexivity. Qed.

(** C3. On a response writer to which nothing has been sent, the readiness
    gate answers 503 exactly when the flag [ready] is false as the gate reads
    it: then the answer is the 503 of [http.Error], the rejection is logged
    and the outcome does not depend on the wrapped handler. When [ready] is
    true the gate is the wrapped handler, on the same request and the same
    world. *)
Theorem onlyWhenReady_gate (handler : Handler) (r : Request) (w : World) :
  w_wrote (rw w) = None ->
  (ready (srv w) = true -> onlyWhenReady handler r w = handler r w)
  /\ (ready (srv w) = false ->
      onlyWhenReady handler r w
      = mkWorld (server_logf LevelInfo "service called when not ready"
                   (request_attrs r) (srv w))
                (http_Error "service not ready" StatusServiceUnavailable (rw w))
      /\ w_status (rw (onlyWhenReady handler r w)) = Some 503)
  /\ ((forall h, w_status (rw (onlyWhenReady h r w)) = Some StatusServiceUnavailable)
      <-> ready (srv w) = false).
Proof.
  intros Hw.
  assert (Hrej : ready (srv w) = false ->
                 forall h, w_status (rw (onlyWhenReady h r w)) = Some 503).
  { intros Hr h. rewrite onlyWhenReady_not_ready by exact Hr. simpl.
    apply http_Error_fresh. exact Hw. }
  split; [apply onlyWhenReady_ready|]. split.
  - intros Hr. split; [apply onlyWhenReady_not_ready; exact Hr | apply Hrej; exact Hr].
  - split.
    + intros Hall. destruct (ready (srv w)) eqn:Hr; [|reflexivity].
      specialize (Hall (fun _ w => w)).
      rewrite onlyWhenReady_ready in Hall by exact Hr.
      unfold w_status in Hall. rewrite Hw in Hall. discriminate Hall.
    + exact Hrej.
Qed.

(** What [r.BasicAuth()] gives without an Authorization header. *)
Lemma Request_BasicAuth_missing (r : Request) :
  Header_Get (Header r) "Authorization" = EmptyString ->
  Request_BasicAuth r = (EmptyString, EmptyString, false).
Proof. intros H. unfold Request_BasicAuth. rewrite H. reflexivity. Qed.

(** The test of [requireBasicAuth] fails exactly when the header parses and
    both strings equal the configured ones. *)
Lemma basic_auth_test (user pass : string) (ok : bool) (cfg : Config) :
  negb ok
  || negb (ConstantTimeCompare (bytes user) (bytes (ExampleBasicAuthUser cfg)) =? 1)%Z
  || negb (ConstantTimeCompare (bytes pass) (bytes (ExampleBasicAuthPassword cfg)) =? 1)%Z
  = negb (ok && String.eqb user (ExampleBasicAuthUser cfg)
             && String.eqb pass (ExampleBasicAuthPassword cfg)).
Proof.
  rewrite !ConstantTimeCompare_bytes.
  destruct ok, (String.eqb user (ExampleBasicAuthUser cfg)),
    (String.eqb pass (ExampleBasicAuthPassword cfg)); reflexivity.
Qed.

Lemma requireBasicAuth_unfold (handler : Handler) (r : Request) (w : World)
    (user pass : string) (ok : bool) :
  Request_BasicAuth r = (user, pass, ok) ->
  requireBasicAuth handler r w
  = if ok && String.eqb user (ExampleBasicAuthUser (Config_ (config (srv w))))
          && String.eqb pass (ExampleBasicAuthPassword (Config_ (config (srv w))))
    then handler r
           (mkWorld (server_logf LevelInfo "authorized request"
                       (request_attrs r ++ [("user", anyString user)])%list (srv w))
                    (rw w))
    else mkWorld (server_logf LevelInfo "unauthorized request"
                    (request_attrs r ++ [("user", anyString user)])%list (srv w))
                 (http_Error "Unauthorized" StatusUnauthorized
                    (w_Header_Set "WWW-Authenticate" basicRealm (rw w))).
Proof.
  intros Hba. unfold requireBasicAuth. rewrite Hba.
  cbv zeta. rewrite basic_auth_test.
  destruct (ok && _ && _); reflexivity.
Qed.

(** C5. Let [r.BasicAuth()] give [user], [pass] and [ok], on a response
    writer to which nothing has been sent.
    - Unless the header parses and both strings equal the configured user and
      password, the gate answers 401 with the header
      [WWW-Authenticate: Basic realm=...], appends one log record with the
      method, the redacted URL and [user], and leaves a world in which the
      wrapped handler occurs nowhere. The record is the same for every
      password sent with that user name.
    - A request without an Authorization header is such a request.
    - When both match, the gate logs and runs the wrapped handler; with
      [http.NotFoundHandler()], as on the root route, the answer is 404. *)
Theorem requireBasicAuth_gate (handler : Handler) (r : Request) (w : World)
    (user pass : string) (ok : bool) :
  w_wrote (rw w) = None ->
  Request_BasicAuth r = (user, pass, ok) ->
  let cfg := Config_ (config (srv w)) in
  let authorized :=
    ok = true /\ user = ExampleBasicAuthUser cfg /\ pass = ExampleBasicAuthPassword cfg in
  let record msg :=
    mkLogRecord LevelInfo msg
      [("method", anyString (Method r)); ("url", anyString (URL_Redacted (URL r)));
       ("user", anyString user)] in
  (~ authorized ->
     let w' := requireBasicAuth handler r w in
     w' = mkWorld (with_log (log (srv w) ++ [record "unauthorized request"])%list (srv w))
                  (http_Error "Unauthorized" StatusUnauthorized
                     (w_Header_Set "WWW-Authenticate" basicRealm (rw w)))
     /\ w_status (rw w') = Some 401
     /\ (exists h, w_sentHeader (rw w') = Some h
                   /\ h !! "WWW-Authenticate" = Some [basicRealm])
     /\ forall r2 pass2,
          Method r2 = Method r -> URL r2 = URL r ->
          Request_BasicAuth r2 = (user, pass2, ok) ->
          ~ (ok = true /\ user = ExampleBasicAuthUser cfg
             /\ pass2 = ExampleBasicAuthPassword cfg) ->
          log (srv (requireBasicAuth handler r2 w)) = log (srv w'))
  /\ (Header_Get (Header r) "Authorization" = EmptyString -> ~ authorized)
  /\ (authorized ->
      requireBasicAuth handler r w
      = handler r (mkWorld (with_log (log (srv w) ++ [record "authorized request"])%list
                              (srv w)) (rw w))
      /\ w_status (rw (requireBasicAuth NotFoundHandler r w)) = Some 404).
Proof.
  intros Hw Hba cfg authorized record.
  assert (Htest : forall p,
            (ok && String.eqb user (ExampleBasicAuthUser cfg)
                && String.eqb p (ExampleBasicAuthPassword cfg) = true)
            <-> (ok = true /\ user = ExampleBasicAuthUser cfg
                 /\ p = ExampleBasicAuthPassword cfg)).
  { intros p. rewrite !andb_true_iff, !String.eqb_eq. tauto. }
  split; [|split].
  - intros Hno w'. subst w'.
    rewrite (requireBasicAuth_unfold handler r w user pass ok Hba).
    fold cfg. destruct (ok && _ && _) eqn:Ht.
    { exfalso. apply Hno. apply Htest. exact Ht. }
    split; [reflexivity|]. simpl.
    destruct (http_Error_fresh "Unauthorized" StatusUnauthorized
                (w_Header_Set "WWW-Authenticate" basicRealm (rw w)) Hw) as (Hs & Hh & _).
    split; [exact Hs|]. split.
    + eexists. split; [exact Hh|]. simpl. unfold Header_Set.
      rewrite !lookup_insert_ne by discriminate. apply lookup_insert_eq.
    + intros r2 pass2 Hm Hu Hba2 Hno2.
      rewrite (requireBasicAuth_unfold handler r2 w user pass2 ok Hba2).
      fold cfg. destruct (ok && _ && String.eqb pass2 _) eqn:Ht2.
      { exfalso. apply Hno2. apply Htest. exact Ht2. }
      simpl. unfold request_attrs. rewrite Hm, Hu. reflexivity.
  - intros Hmiss [Hok _].
    rewrite (Request_BasicAuth_missing r Hmiss) in Hba.
    injection Hba as _ _ <-. discriminate Hok.
  - intros Hyes.
    assert (Ht : ok && String.eqb user (ExampleBasicAuthUser cfg)
                    && String.eqb pass (ExampleBasicAuthPassword cfg) = true)
      by (apply Htest; exact Hyes).
    split.
    + rewrite (requireBasicAuth_unfold handler r w user pass ok Hba).
      fold cfg. rewrite Ht. reflexivity.
    + rewrite (requireBasicAuth_unfold NotFoundHandler r w user pass ok Hba).
      fold cfg. rewrite Ht. simpl. apply http_Error_fresh. exact Hw.
Qed.

End Gates.

Lemma onlyWhenReady_gate_witness :
  let r := Examples.get "/ExampleGet" Examples.no_header in
  let w := Examples.fresh (Examples.server_with_ready false) in
  w_wrote (rw w) = None
  /\ ready (srv w) = false
  /\ w_status (rw (onlyWhenReady (lib := Examples.lib) (Examples.answer "gateway") r w)) = Some 503.
Proof.
  intros r w. split; [reflexivity|]. split; [reflexivity|].
  destruct (onlyWhenReady_gate (lib := Examples.lib) (Examples.answer "gateway") r w eq_refl)
    as (_ & Hrej & _).
  apply Hrej. reflexivity.
Defined.

Lemma requireBasicAuth_gate_witness :
  let r := Examples.get "/" Examples.bad_auth in
  let w := Examples.fresh (Examples.server_with_ready true) in
  w_wrote (rw w) = None
  /\ Request_BasicAuth (lib := Examples.lib) r = ("admin", "wrong", true)
  /\ w_status (rw (requireBasicAuth (lib := Examples.lib) NotFoundHandler r w)) = Some 401
  /\ w_status (rw (requireBasicAuth (lib := Examples.lib) NotFoundHandler
                     (Examples.get "/" Examples.good_auth) w)) = Some 404.
Proof.
  intros r w. split; [reflexivity|]. split; [vm_compute; reflexivity|].
  split.
  - destruct (requireBasicAuth_gate (lib := Examples.lib) NotFoundHandler r w "admin" "wrong" true
                eq_refl ltac:(vm_compute; reflexivity)) as (Hrej & _ & _).
    apply Hrej. intros (_ & _ & Hp). vm_compute in Hp. discriminate Hp.
  - destruct (requireBasicAuth_gate (lib := Examples.lib) NotFoundHandler
                (Examples.get "/" Examples.good_auth) w "admin" "s3cret" true
                eq_refl ltac:(vm_compute; reflexivity)) as (_ & _ & Hyes).
    apply Hyes. vm_compute. auto.
Defined.

(** ** Routes *)

Lemma substring_all (s : string) : substring 0 (String.length s) s = s.
Proof. induction s as [|c s IH]; simpl; [reflexivity | rewrite IH; reflexivity]. Qed.

Ltac unfold_routes :=
  unfold ServeMux_handler, ServeMux_match, shouldRedirect, mux_exact, routes,
    routes_before_proxy, ServeMux_Handle;
  cbv [String.append].

Section Routing.
Context `{lib : NetLib} `{col : Collaborators}.
Variable proxy : Handler.

(** Every path under "/api/" is served by the entry of that pattern. *)
Lemma handler_api (rest : string) :
  ServeMux_handler (routes proxy) ("/api/" +:+ rest)
  = StripPrefix "/api" (onlyWhenReady (logger grpcMux)).
Proof. unfold_routes. destruct rest as [|c rest]; cbn; reflexivity. Qed.

Lemma no_redirect_api (rest : string) :
  shouldRedirect (routes proxy) ("/api/" +:+ rest) = false.
Proof. unfold_routes. destruct rest as [|c rest]; cbn; reflexivity. Qed.

Lemma handler_proxy (rest : string) :
  ServeMux_handler (routes proxy) ("/examplereverseproxy/" +:+ rest) = logger proxy.
Proof. unfold_routes. destruct rest as [|c rest]; cbn; reflexivity. Qed.

Lemma no_redirect_proxy (rest : string) :
  shouldRedirect (routes proxy) ("/examplereverseproxy/" +:+ rest) = false.
Proof. unfold_routes. destruct rest as [|c rest]; cbn; reflexivity. Qed.

(** A path under "/probe/" has no entry of its own and falls to "/". *)
Lemma handler_probe (rest : string) :
  ServeMux_handler (routes proxy) ("/probe/" +:+ rest)
  = requireBasicAuth NotFoundHandler.
Proof. unfold_routes. cbn. reflexivity. Qed.

Lemma no_redirect_probe (rest : string) :
  shouldRedirect (routes proxy) ("/probe/" +:+ rest) = false.
Proof. unfold_routes. cbn. reflexivity. Qed.

Lemma StripPrefix_api (h : Handler) (r : Request) (rest : string) (w : World) :
  Path (URL r) = "/api/" +:+ rest -> RawPath (URL r) = EmptyString ->
  StripPrefix "/api" h r w = h (with_paths ("/" +:+ rest) EmptyString r) w.
Proof.
  intros Hp Hr. unfold StripPrefix. cbn. rewrite Hp, Hr.
  unfold strings_TrimPrefix, strings_HasPrefix. cbv [String.append]. cbn.
  rewrite substring_all.
  replace (String.length rest <=? S (S (S (String.length rest))))%nat with true;
    [reflexivity|].
  symmetry. apply Nat.leb_le. lia.
Qed.

(** The mux on a request whose path it does not redirect. *)
Lemma ServeMux_ServeHTTP_direct (r : Request) (w : World) :
  RequestURI r <> "*" ->
  shouldRedirect (routes proxy) (Path (URL r)) = false ->
  (Method r = "CONNECT" \/ cleanPath (Path (URL r)) = Path (URL r)) ->
  ServeMux_ServeHTTP (routes proxy) r w
  = ServeMux_handler (routes proxy) (Path (URL r)) r w.
Proof.
  intros Huri Hred Hclean. unfold ServeMux_ServeHTTP, ServeMux_Handler.
  destruct (String.eqb_spec (RequestURI r) "*") as [Heq|_]; [contradiction|].
  destruct (String.eqb_spec (Method r) "CONNECT") as [Hm|Hm].
  - rewrite Hred. reflexivity.
  - destruct Hclean as [Hc|Hc]; [contradiction|].
    rewrite Hc, Hred, String.eqb_refl. reflexivity.
Qed.

(** The "/api/" subtree: prefix stripped, then the readiness gate around the
    logger around the gateway. *)
Lemma route_api (r : Request) (rest : string) (w : World) :
  Path (URL r) = "/api/" +:+ rest -> RawPath (URL r) = EmptyString ->
  RequestURI r <> "*" ->
  (Method r = "CONNECT" \/ cleanPath (Path (URL r)) = Path (URL r)) ->
  ServeMux_ServeHTTP (routes proxy) r w
  = onlyWhenReady (logger grpcMux) (with_paths ("/" +:+ rest) EmptyString r) w.
Proof.
  intros Hp Hr Huri Hclean.
  rewrite ServeMux_ServeHTTP_direct; try assumption.
  - rewrite Hp, handler_api. apply StripPrefix_api; assumption.
  - rewrite Hp. apply no_redirect_api.
Qed.

Lemma route_proxy (r : Request) (rest : string) (w : World) :
  Path (URL r) = "/examplereverseproxy/" +:+ rest ->
  RequestURI r <> "*" ->
  (Method r = "CONNECT" \/ cleanPath (Path (URL r)) = Path (URL r)) ->
  ServeMux_ServeHTTP (routes proxy) r w = logger proxy r w.
Proof.
  intros Hp Huri Hclean.
  rewrite ServeMux_ServeHTTP_direct; try assumption.
  - rewrite Hp, handler_proxy. reflexivity.
  - rewrite Hp. apply no_redirect_proxy.
Qed.

Lemma route_probe (r : Request) (rest : string) (w : World) :
  Path (URL r) = "/probe/" +:+ rest ->
  RequestURI r <> "*" ->
  (Method r = "CONNECT" \/ cleanPath (Path (URL r)) = Path (URL r)) ->
  ServeMux_ServeHTTP (routes proxy) r w = requireBasicAuth NotFoundHandler r w.
Proof.
  intros Hp Huri Hclean.
  rewrite ServeMux_ServeHTTP_direct; try assumption.
  - rewrite Hp, handler_probe. reflexivity.
  - rewrite Hp. apply no_redirect_probe.
Qed.

Lemma probe_path_clean (name : string) :
  name = "startup" \/ name = "live" \/ name = "ready" ->
  cleanPath ("/api/probe/" +:+ name) = "/api/probe/" +:+ name
  /\ cleanPath ("/probe/" +:+ name) = "/probe/" +:+ name.
Proof. intros [-> | [-> | ->]]; split; vm_compute; reflexivity. Qed.

(** C1, as the code has it. The probe RPCs are reached without a password in
    two ways. A gRPC request (HTTP/2, Content-Type "application/grpc") goes
    to the gRPC server past every gate. Over HTTP the gateway serves them
    under "/api/probe/startup", "/api/probe/live" and "/api/probe/ready",
    inside the readiness gate: with [ready] true the request is logged and
    given, the prefix "/api" removed, to the gateway; with [ready] false the
    answer is the gate's 503 and the gateway does not run. No other flag is
    read on the way. The same paths without "/api" fall to the root route
    behind basic authentication. *)
Theorem probe_routes (r : Request) (w : World) (name : string) :
  name = "startup" \/ name = "live" \/ name = "ready" ->
  RawPath (URL r) = EmptyString ->
  RequestURI r <> "*" ->
  let grpc := (ProtoMajor r =? 2)%Z
              && String.eqb (Header_Get (Header r) "Content-Type") "application/grpc" in
  (grpc = true -> root_handler proxy r w = grpcServer r w)
  /\ (grpc = false -> Path (URL r) = "/api/probe/" +:+ name ->
      let r' := with_paths ("/probe/" +:+ name) EmptyString r in
      root_handler proxy r w
      = (if ready (srv w)
         then grpcMux r' (log_Info "request" (request_attrs r') w)
         else mkWorld (server_logf LevelInfo "service called when not ready"
                         (request_attrs r') (srv w))
                      (http_Error "service not ready" StatusServiceUnavailable (rw w)))
      /\ (ready (srv w) = false -> w_wrote (rw w) = None ->
          w_status (rw (root_handler proxy r w)) = Some 503))
  /\ (grpc = false -> Path (URL r) = "/probe/" +:+ name ->
      root_handler proxy r w = requireBasicAuth NotFoundHandler r w).
Proof.
  intros Hname Hraw Huri. cbv zeta.
  destruct (probe_path_clean name Hname) as [Hc1 Hc2].
  unfold root_handler, upgradeHandler.
  split; [|split].
  - intros Hg. rewrite Hg. reflexivity.
  - intros Hg Hp. rewrite Hg.
    assert (Heq : ServeMux_ServeHTTP (routes proxy) r w
                  = onlyWhenReady (logger grpcMux)
                      (with_paths ("/probe/" +:+ name) EmptyString r) w).
    { apply (route_api r ("probe/" +:+ name) w); try assumption.
      right. rewrite Hp. exact Hc1. }
    rewrite Heq. split.
    + unfold onlyWhenReady. destruct (ready (srv w)); reflexivity.
    + intros Hr Hw. rewrite onlyWhenReady_not_ready by exact Hr.
      simpl. apply http_Error_fresh. exact Hw.
  - intros Hg Hp. rewrite Hg.
    apply (route_probe r name w); try assumption.
    right. rewrite Hp. exact Hc2.
Qed.

(** C8, as the code has it. On the gated subtree "/api/" the readiness gate
    decides first and the audit logger runs inside it. A request let through
    gets the logger's record "request", with the method and the redacted URL,
    before the gateway runs. A request rejected for [ready] false never
    reaches the logger: the one record it leaves is the gate's own, "service
    called when not ready", with the same two attributes. *)
Theorem gated_route_audit (r : Request) (w : World) (rest : string) :
  Path (URL r) = "/api/" +:+ rest ->
  RawPath (URL r) = EmptyString ->
  RequestURI r <> "*" ->
  (Method r = "CONNECT" \/ cleanPath (Path (URL r)) = Path (URL r)) ->
  (ProtoMajor r =? 2)%Z
    && String.eqb (Header_Get (Header r) "Content-Type") "application/grpc" = false ->
  let r' := with_paths ("/" +:+ rest) EmptyString r in
  let record msg :=
    mkLogRecord LevelInfo msg
      [("method", anyString (Method r)); ("url", anyString (URL_Redacted (URL r')))] in
  (ready (srv w) = true ->
   root_handler proxy r w
   = grpcMux r' (mkWorld (with_log (log (srv w) ++ [record "request"])%list (srv w))
                         (rw w)))
  /\ (ready (srv w) = false ->
      root_handler proxy r w
      = mkWorld (with_log (log (srv w) ++ [record "service called when not ready"])%list
                   (srv w))
                (http_Error "service not ready" StatusServiceUnavailable (rw w))).
Proof.
  intros Hp Hraw Huri Hclean Hgrpc r' record.
  unfold root_handler, upgradeHandler. rewrite Hgrpc.
  rewrite (route_api r rest w Hp Hraw Huri Hclean). fold r'.
  split; intros Hr.
  - rewrite onlyWhenReady_ready by exact Hr. reflexivity.
  - rewrite onlyWhenReady_not_ready by exact Hr. reflexivity.
Qed.

End Routing.

(** ** Construction *)

Section Building.
Context `{lib : NetLib} `{col : Collaborators}.

(** A raw URL with a control byte before its fragment does not parse. *)
Lemma url_Parse_control_byte (rawURL : string) :
  stringContainsCTLByte (fst (fst (strings_Cut rawURL "#"%char))) = true ->
  url_Parse rawURL
  = Err (url_Error "parse" (fst (fst (strings_Cut rawURL "#"%char)))
           (errorString "net/url: invalid control character in URL")).
Proof.
  intros H. unfold url_Parse.
  destruct (strings_Cut rawURL "#"%char) as [[u frag] found]. simpl in *.
  rewrite H. reflexivity.
Qed.

(** C9, as the code has it. With the gateway registered, [New] follows the
    parse of the configured proxy URL. A string that [url.Parse] accepts
    gives a server without a panic, and every request under
    "/examplereverseproxy/" is logged and handed to the proxy for that URL. A
    string that [url.Parse] rejects is logged at error level and
    [mustReverseProxy], and with it [New], panics with the string as its
    value; every string with an ASCII control byte before its fragment is
    such a string. *)
Theorem New_reverse_proxy (log0 : list LogRecord) (cfg : Config) :
  RegisterAPIHandlerFromEndpoint = None ->
  let rawURL := ExampleReverseProxyURL cfg in
  let s := new_server log0 cfg in
  match url_Parse rawURL with
  | Ok url =>
      let proxy := reverseProxy (ReverseProxy_ServeHTTP url) in
      New log0 cfg
      = (s, Returned (Ok (mkBuilt s (routes proxy)
                            (mkHttpServer (httpAddr (config s)) (root_handler proxy)))))
      /\ forall (r : Request) (rest : string) (w : World),
           Path (URL r) = "/examplereverseproxy/" +:+ rest ->
           RequestURI r <> "*" ->
           (Method r = "CONNECT" \/ cleanPath (Path (URL r)) = Path (URL r)) ->
           (ProtoMajor r =? 2)%Z
             && String.eqb (Header_Get (Header r) "Content-Type") "application/grpc"
             = false ->
           root_handler proxy r w
           = ReverseProxy_ServeHTTP url r (log_Info "request" (request_attrs r) w)
  | Err err =>
      New log0 cfg
      = (server_logf LevelError "failed to parse reverse proxy url"
           [("rawURL", anyString rawURL); ("error", anyError err)] s,
         Panicked rawURL)
  end
  /\ (stringContainsCTLByte (fst (fst (strings_Cut rawURL "#"%char))) = true ->
      exists s', New log0 cfg = (s', Panicked rawURL)).
Proof.
  intros Hreg rawURL s.
  assert (Hnew : New log0 cfg
                 = match mustReverseProxy s rawURL with
                   | (s', Panicked v) => (s', Panicked v)
                   | (s', Returned proxy) =>
                       (s', Returned (Ok (mkBuilt s' (routes proxy)
                              (mkHttpServer (httpAddr (config s')) (root_handler proxy)))))
                   end).
  { unfold New. rewrite Hreg. reflexivity. }
  split.
  - rewrite Hnew. unfold mustReverseProxy.
    destruct (url_Parse rawURL) as [url|err]; [|reflexivity].
    split; [reflexivity|].
    intros r rest w Hp Huri Hclean Hgrpc.
    unfold root_handler, upgradeHandler. rewrite Hgrpc.
    rewrite (route_proxy _ r rest w Hp Huri Hclean). reflexivity.
  - intros Hctl. rewrite Hnew. unfold mustReverseProxy.
    rewrite (url_Parse_control_byte rawURL Hctl). eexists. reflexivity.
Qed.

End Building.

(** ** The routes on concrete requests *)

(** C1 as stated fails: with the example collaborators, the same request to the liveness
    probe is answered 200 by the gateway when [ready] is true and 503 by the
    readiness gate when [ready] is false; and "/probe/live" without the
    prefix asks for credentials. *)
Lemma probe_rejected_when_not_ready :
  let h := root_handler (lib := Examples.lib) (col := Examples.col)
             (Examples.answer "proxy") in
  let r := Examples.get "/api/probe/live" Examples.no_header in
  let answer b :=
    let w := h r (Examples.fresh (Examples.server_with_ready b)) in
    (w_status (rw w), w_body (rw w)) in
  answer true = (Some 200, "gateway")
  /\ answer false = (Some 503, "service not ready" +:+ newline)
  /\ w_status (rw (h (Examples.get "/probe/live" Examples.no_header)
                     (Examples.fresh (Examples.server_with_ready true))))
     = Some 401.
Proof. vm_compute. auto. Qed.

Lemma probe_routes_witness :
  let h := root_handler (lib := Examples.lib) (col := Examples.col)
             (Examples.answer "proxy") in
  let r := Examples.get "/api/probe/ready" Examples.no_header in
  let w := Examples.fresh (Examples.server_with_ready false) in
  RawPath (URL r) = EmptyString /\ RequestURI r <> "*"
  /\ Path (URL r) = "/api/probe/" +:+ "ready"
  /\ ready (srv w) = false /\ w_wrote (rw w) = None
  /\ w_status (rw (h r w)) = Some 503.
Proof.
  intros h r w.
  assert (Huri : RequestURI r <> "*") by discriminate.
  repeat (split; [first [reflexivity | exact Huri]|]).
  destruct (probe_routes (lib := Examples.lib) (col := Examples.col)
              (Examples.answer "proxy") r w "ready"
              (or_intror (or_intror eq_refl)) eq_refl Huri) as (_ & Hapi & _).
  destruct (Hapi eq_refl eq_refl) as [_ H503].
  apply H503; reflexivity.
Defined.

(** C8 as stated fails: a request to the gated subtree that the readiness
    gate rejects leaves one log record, and it is not the audit logger's. *)
Lemma rejected_request_not_seen_by_logger :
  let h := root_handler (lib := Examples.lib) (col := Examples.col)
             (Examples.answer "proxy") in
  let r := Examples.get "/api/ExampleGet" Examples.no_header in
  let messages b :=
    map lr_msg (log (srv (h r (Examples.fresh (Examples.server_with_ready b))))) in
  messages false = ["service called when not ready"]
  /\ messages true = ["request"].
Proof. vm_compute. auto. Qed.

Lemma gated_route_audit_witness :
  let h := root_handler (lib := Examples.lib) (col := Examples.col)
             (Examples.answer "proxy") in
  let r := Examples.get "/api/ExampleGet" Examples.no_header in
  let w := Examples.fresh (Examples.server_with_ready false) in
  Path (URL r) = "/api/" +:+ "ExampleGet"
  /\ cleanPath (Path (URL r)) = Path (URL r)
  /\ ready (srv w) = false
  /\ log (srv (h r w))
     = [mkLogRecord LevelInfo "service called when not ready"
          [("method", anyString "GET"); ("url", anyString "/ExampleGet")]].
Proof.
  intros h r w.
  repeat (split; [reflexivity|]).
  assert (Huri : RequestURI r <> "*") by discriminate.
  destruct (gated_route_audit (lib := Examples.lib) (col := Examples.col)
              (Examples.answer "proxy") r w "ExampleGet"
              eq_refl eq_refl Huri (or_intror eq_refl) eq_refl) as [_ Hrej].
  unfold h. rewrite (Hrej eq_refl). reflexivity.
Defined.

(** C9 as stated fails: a proxy URL with a tab in it makes [New] panic. *)
Lemma New_panics_on_bad_proxy_url :
  snd (New (lib := Examples.lib) (col := Examples.col) [] Examples.cfg_with_tab)
  = Panicked ("http://up" +:+ String (ascii_of_nat 9) "stream.example")
  /\ map lr_msg (log (fst (New (lib := Examples.lib) (col := Examples.col) []
                             Examples.cfg_with_tab)))
     = ["failed to parse reverse proxy url"].
Proof. vm_compute. auto. Qed.

Lemma New_reverse_proxy_witness :
  RegisterAPIHandlerFromEndpoint (Collaborators := Examples.col) = None
  /\ exists b, New (lib := Examples.lib) (col := Examples.col) [] Examples.cfg
               = (new_server [] Examples.cfg, Returned (Ok b)).
Proof.
  split; [reflexivity|].
  pose proof (New_reverse_proxy (lib := Examples.lib) (col := Examples.col)
                [] Examples.cfg eq_refl) as [H _].
  cbv zeta in H.
  change (url_Parse (ExampleReverseProxyURL Examples.cfg))
    with (Ok (A := url_URL) (mkURL "http" None "upstream.example" "/base" EmptyString EmptyString EmptyString)) in H.
  destruct H as [H _]. eexists. exact H.
Defined.

(** ** The life cycle *)

Lemma CompareAndSwap_true_false (b : bool) : CompareAndSwap true false b = false.
Proof. destruct b; reflexivity. Qed.

Lemma CompareAndSwap_false_true (b : bool) : CompareAndSwap false true b = true.
Proof. destruct b; reflexivity. Qed.

Lemma exec_app (env : Env) (evs1 evs2 : list event) (st : lifecycle) :
  exec env (evs1 ++ evs2) st
  = match exec env evs1 st with
    | Some st' => exec env evs2 st'
    | None => None
    end.
Proof.
  revert st. induction evs1 as [|ev evs1 IH]; intros st; simpl; [reflexivity|].
  destruct (step env ev st); [apply IH | reflexivity].
Qed.

Lemma exec_reachable (env : Env) (s0 : server) (evs : list event) :
  forall st st', reachable env s0 st -> exec env evs st = Some st' ->
                 reachable env s0 st'.
Proof.
  induction evs as [|ev evs IH]; intros st st' Hr He; simpl in He.
  - injection He as <-. exact Hr.
  - destruct (step env ev st) as [st1|] eqn:Hs; [|discriminate].
    apply (IH st1); [|exact He]. apply (reach_step env s0 st ev); assumption.
Qed.

Lemma lifecycle_inv_init (env : Env) (s0 : server) :
  lifecycle_inv env s0 (lifecycle_init s0).
Proof.
  unfold lifecycle_inv, lifecycle_init. simpl.
  repeat split; try discriminate; try congruence.
Qed.

Ltac step_inversion H :=
  unfold step, listenAndServe, ListenAndServe in H; simpl in H;
  repeat match type of H with
         | context [match ?x with _ => _ end] => destruct x eqn:?; simpl in H
         | context [if ?x then _ else _] => destruct x eqn:?; simpl in H
         end;
  try discriminate H;
  injection H as <-.

Ltac inv_prepare :=
  unfold bind_failure_record, migration_failure_record in *;
  simpl in *;
  repeat match goal with
         | H : config ?s = config _ |- context [config ?s] => rewrite H
         end;
  rewrite ?CompareAndSwap_true_false, ?CompareAndSwap_false_true in *;
  repeat match goal with
         | H : _ /\ _ |- _ => destruct H
         | H : exists _, _ |- _ => destruct H
         end.

Ltac inv_solve :=
  simpl in *;
  first [ assumption | reflexivity | discriminate | congruence
        | solve [eexists; split; [eassumption|]; rewrite ?in_app_iff; simpl; tauto]
        | solve [intuition (try discriminate; try congruence)] ].

Lemma lifecycle_inv_step (env : Env) (s0 : server) (st st' : lifecycle) (ev : event) :
  lifecycle_inv env s0 st -> step env ev st = Some st' -> lifecycle_inv env s0 st'.
Proof.
  intros Hinv Hstep. unfold lifecycle_inv in *.
  destruct st as [s l m c b i n]. simpl in Hinv.
  destruct Hinv as (I1 & I2 & I3 & I4 & I5 & I6 & I7 & I8 & I9 & I10 & I11).
  destruct ev.
  all: step_inversion Hstep.
  all: inv_prepare.
  all: repeat split.
  all: try solve [inv_solve].
  all: try solve [destruct l; inv_solve].
  all: try solve [destruct m as [| | | | | | | | | | |[]]; inv_solve].
  all: try solve [destruct l; inv_prepare; repeat split; inv_solve].
  all: try solve [destruct m as [| | | | | | | | | | |[]]; inv_prepare; repeat split;
                  inv_solve].
Qed.

Lemma reachable_inv (env : Env) (s0 : server) (st : lifecycle) :
  reachable env s0 st -> lifecycle_inv env s0 st.
Proof.
  induction 1 as [|st ev st' _ IH Hstep].
  - apply lifecycle_inv_init.
  - exact (lifecycle_inv_step env s0 st st' ev IH Hstep).
Qed.

(** Tries the schedules in which only [ListenAndServe] runs. *)
Ltac main_runs_to_return rew :=
  let go evs :=
    (exists evs;
     repeat (progress (cbn [exec step]; unfold ListenAndServe; simpl; rew));
     eexists; (split; [reflexivity | first [reflexivity | discriminate]])) in
  first [ go (@nil event)
        | go [ev_main]
        | go [ev_main; ev_main]
        | go [ev_main; ev_main; ev_main]
        | go [ev_main; ev_main; ev_main; ev_main]
        | go [ev_main; ev_main; ev_main; ev_main; ev_main] ].


Section LifeCycle.
Variables (env : Env) (s0 : server).

(** C6. When the database connects and the migration fails, in every state
    the two functions can reach: [ListenAndServe], once it has returned, has
    returned nil, and the failure is in the log as an error record; from the
    state, [ListenAndServe] does come to that return; it has not called
    [Shutdown] and has not touched [shutdownRequested]; and a listener that
    serves goes on accepting requests. *)
Theorem migration_failure_returns_nil (st : lifecycle) (err : error) :
  db_Connect env = None ->
  migrations_Migrate env = Some err ->
  reachable env s0 st ->
  (forall r, ListenAndServe_result st = Some r ->
             r = None /\ In (migration_failure_record err) (log (lc_server st)))
  /\ (exists evs st', exec env evs st = Some st'
                      /\ ListenAndServe_result st' = Some None)
  /\ lc_inShutdown st = false
  /\ shutdownRequested (lc_server st) = shutdownRequested s0
  /\ (lc_listener st = L_serving -> exists st', step env ev_request st = Some st').
Proof.
  intros Hc Hm Hr. pose proof (reachable_inv env s0 st Hr) as Hinv.
  unfold lifecycle_inv in Hinv.
  destruct st as [s l m c b i n]. simpl in Hinv.
  destruct Hinv as (I1 & I2 & I3 & I4 & I5 & I6 & I7 & I8 & I9 & I10 & I11).
  unfold ListenAndServe_result. simpl.
  assert (Hm' : match m with
                | M_connect | M_migrate | M_migrate_failed _ | M_returned R_migrate => True
                | _ => False
                end).
  { destruct m as [| | | | | | | | | | |[]]; simpl in *; intuition congruence. }
  split; [|split; [|split; [|split]]].
  - intros r Hres. destruct m as [| | | | | | | | | | |[]]; try contradiction; try discriminate.
    injection Hres as <-. split; [reflexivity|].
    destruct I9 as (_ & e & He & Hin). congruence.
  - destruct m as [| | | | | | | | | | |[]]; try contradiction;
      main_runs_to_return ltac:(rewrite ?Hc, ?Hm).
  - rewrite I4. destruct m as [| | | | | | | | | | |[]]; try contradiction; reflexivity.
  - rewrite I3. destruct m as [| | | | | | | | | | |[]]; try contradiction; reflexivity.
  - intros ->. simpl.
    assert (Hi : i = false).
    { rewrite I4. destruct m as [| | | | | | | | | | |[]]; try contradiction; reflexivity. }
    rewrite (I6 eq_refl Hi), Hi. simpl. eexists. reflexivity.
Qed.













(** C7, as the code has it. With the flag false at the start, in every state
    the two functions can reach:
    - [httpServerAvailable] is true only when [listenAndServe] is past the
      store that opens it, which comes before [net.Listen];
    - from that store on the flag is true as long as neither function has
      run its [CompareAndSwap(true, false)], whatever [net.Listen] answers;
    - an open listening socket implies that [listenAndServe] is past the store
      and before its [CompareAndSwap];
    - after a failed bind no socket is open, yet [listenAndServe] is past the
      store and runs no [CompareAndSwap] of its own;
    - the flag is false once [listenAndServe] has run its [CompareAndSwap] or
      [ListenAndServe] has returned from [case <-s.httpClosed]. *)
Theorem httpServerAvailable_meaning (st : lifecycle) :
  httpServerAvailable s0 = false ->
  reachable env s0 st ->
  let l := lc_listener st in
  let m := lc_main st in
  let flag := httpServerAvailable (lc_server st) in
  (flag = true -> listener_has_stored l = true)
  /\ (listener_has_stored l = true -> listener_has_reset l = false ->
      main_has_reset m = false -> flag = true)
  /\ (lc_bound st = true ->
      listener_has_stored l = true /\ listener_has_reset l = false)
  /\ (listener_bind_failed l = true ->
      lc_bound st = false
      /\ listener_has_stored l = true /\ listener_has_reset l = false)
  /\ (listener_has_reset l = true \/ m = M_returned R_closed -> flag = false).
Proof.
  intros H0 Hr. pose proof (reachable_inv env s0 st Hr) as Hinv.
  unfold lifecycle_inv in Hinv.
  destruct st as [s l m c b i n]. simpl in *.
  destruct Hinv as (I1 & I2 & I3 & I4 & I5 & I6 & I7 & I8 & I9 & I10 & I11).
  rewrite H0 in I2. unfold expected_available in I2.
  split; [|split; [|split; [|split]]].
  - intros Hf. destruct (listener_has_stored l); [reflexivity|].
    simpl in I2. rewrite Hf in I2. destruct (main_has_reset m); discriminate.
  - intros Hs Hlr Hmr. rewrite Hs, Hlr in I2. simpl in I2.
    destruct m as [| | | | | | | | | | |[]]; simpl in *; congruence.
  - intros Hb. rewrite (I5 Hb). auto.
  - intros Hbf. split.
    + destruct b; [|reflexivity]. rewrite (I5 eq_refl) in Hbf. discriminate.
    + destruct l; try discriminate; auto.
  - intros [Hlr | ->].
    + destruct l; try discriminate; simpl in I2; exact I2.
    + destruct l; simpl in *; try exact I2; discriminate.
Qed.

End LifeCycle.


(** ** The life cycle on concrete schedules *)



Lemma migration_failure_returns_nil_witness :
  let env := mkEnv None None (Some (errorString "migration 0003 failed")) None in
  let s0 := new_server [] Examples.cfg in
  db_Connect env = None
  /\ migrations_Migrate env = Some (errorString "migration 0003 failed")
  /\ reachable env s0 (lifecycle_init s0)
  /\ exists evs st', exec env evs (lifecycle_init s0) = Some st'
                     /\ ListenAndServe_result st' = Some None.
Proof.
  intros env s0. split; [reflexivity|]. split; [reflexivity|].
  split; [apply reach_init|].
  destruct (migration_failure_returns_nil env s0 (lifecycle_init s0)
              (errorString "migration 0003 failed") eq_refl eq_refl (reach_init _ _))
    as (_ & Hret & _).
  exact Hret.
Defined.

(** C7 as stated fails: the flag is true while no socket is open, before the
    bind is tried and after it has failed. *)
Lemma available_without_listener :
  let s0 := new_server [] Examples.cfg in
  httpServerAvailable s0 = false
  /\ (exists st, reachable env_bind_fails s0 st
                 /\ lc_listener st = L_listen
                 /\ httpServerAvailable (lc_server st) = true
                 /\ lc_bound st = false)
  /\ (exists st, reachable env_bind_fails s0 st
                 /\ lc_listener st = L_send_bind
                 /\ httpServerAvailable (lc_server st) = true
                 /\ lc_bound st = false).
Proof.
  intros s0. split; [reflexivity|]. split.
  - eexists. split.
    + eapply (exec_reachable env_bind_fails _ [ev_listener]);
        [apply reach_init | vm_compute; reflexivity].
    + repeat split.
  - eexists. split.
    + eapply (exec_reachable env_bind_fails _ [ev_listener; ev_listener; ev_listener]);
        [apply reach_init | vm_compute; reflexivity].
    + repeat split.
Qed.

Lemma httpServerAvailable_meaning_witness :
  let s0 := new_server [] Examples.cfg in
  let st := mkLifecycle (with_httpServerAvailable true s0) L_listen M_connect
                        None false false 0 in
  httpServerAvailable s0 = false
  /\ reachable env_bind_fails s0 st
  /\ httpServerAvailable (lc_server st) = true.
Proof.
  intros s0 st.
  assert (Hr : reachable env_bind_fails s0 st).
  { apply (reach_step env_bind_fails s0 (lifecycle_init s0) ev_listener);
      [apply reach_init | reflexivity]. }
  split; [reflexivity|]. split; [exact Hr|].
  destruct (httpServerAvailable_meaning env_bind_fails s0 st eq_refl Hr)
    as (_ & Htrue & _).
  apply Htrue; reflexivity.
Defined.

(** * Further properties of the package *)

(** ** Credentials *)

(** X1. [ConstantTimeCompare] on byte slices: 1 exactly on equal slices, 0
    otherwise, and 0 at once when the lengths differ. *)
Theorem ConstantTimeCompare_correct (x y : list Z) :
  Forall (fun b => 0 <= b < 256) x ->
  Forall (fun b => 0 <= b < 256) y ->
  (ConstantTimeCompare x y = 1 <-> x = y)
  /\ (x <> y -> ConstantTimeCompare x y = 0)
  /\ (length x <> length y -> ConstantTimeCompare x y = 0).
Proof.
  intros Hx Hy.
  assert (Hval : ConstantTimeCompare x y = 1 /\ x = y
                 \/ ConstantTimeCompare x y = 0 /\ x <> y).
  { unfold ConstantTimeCompare.
    destruct (Nat.eqb_spec (length x) (length y)) as [Hlen|Hlen]; simpl.
    - destruct (xor_accumulate_spec x y 0 Hlen Hx Hy ltac:(lia)) as [Hr Hz].
      rewrite ConstantTimeByteEq_zero by exact Hr.
      destruct (Z.eqb_spec (xor_accumulate 0 x y) 0) as [H0|H0].
      + left. split; [reflexivity|]. apply Hz. exact H0.
      + right. split; [reflexivity|]. intros Heq. apply H0. apply Hz. auto.
    - right. split; [reflexivity|]. intros ->. apply Hlen. reflexivity. }
  split; [|split].
  - split.
    + intros H1. destruct Hval as [[_ He]|[H0 _]]; [exact He|]. rewrite H0 in H1. discriminate.
    + intros He. destruct Hval as [[H1 _]|[_ Hne]]; [exact H1|contradiction].
  - intros Hne. destruct Hval as [[_ He]|[H0 _]]; [contradiction|exact H0].
  - intros Hlen. unfold ConstantTimeCompare.
    destruct (Nat.eqb_spec (length x) (length y)); [contradiction|reflexivity].
Qed.

Lemma ConstantTimeCompare_correct_witness :
  Forall (fun b => 0 <= b < 256) (bytes "s3cret")
  /\ Forall (fun b => 0 <= b < 256) (bytes "s3cre7")
  /\ ConstantTimeCompare (bytes "s3cret") (bytes "s3cre7") = 0.
Proof.
  split; [apply bytes_range|]. split; [apply bytes_range|].
  destruct (ConstantTimeCompare_correct (bytes "s3cret") (bytes "s3cre7")
              (bytes_range _) (bytes_range _)) as (_ & Hne & _).
  apply Hne. discriminate.
Defined.

(** [strings.Cut] at a byte: the part before the first separator holds no
    separator, and the parts put back together give the string. *)
Lemma strings_Cut_found (s : string) (sep : ascii) (before after : string) :
  strings_Cut s sep = (before, after, true) ->
  s = before +:+ String sep after /\ has_byte sep before = false.
Proof.
  revert before after. induction s as [|c s IH]; intros before after H; simpl in H.
  - discriminate.
  - destruct (Ascii.eqb_spec c sep) as [->|Hne].
    + injection H as <- <-. split; reflexivity.
    + destruct (strings_Cut s sep) as [[b a] found]. destruct found.
      * injection H as <- <-. destruct (IH b a eq_refl) as [-> Hb].
        split; [reflexivity|]. unfold has_byte in *. simpl.
        rewrite Hb. rewrite orb_false_r. apply Ascii.eqb_neq. congruence.
      * discriminate.
Qed.

Lemma strings_Cut_app (user rest : string) (sep : ascii) :
  has_byte sep user = false ->
  strings_Cut (user +:+ String sep rest) sep = (user, rest, true).
Proof.
  induction user as [|c user IH]; intros H.
  - cbv [String.append]. simpl. rewrite Ascii.eqb_refl. reflexivity.
  - unfold has_byte in H. simpl in H. apply orb_false_iff in H as [Hc Hu].
    change (String c user +:+ String sep rest)
      with (String c (user +:+ String sep rest)).
    simpl. rewrite Ascii.eqb_sym, Hc. rewrite (IH Hu). reflexivity.
Qed.

Lemma substring_app_l (a b : string) :
  substring 0 (String.length a) (a +:+ b) = a.
Proof.
  induction a as [|c a IH]; simpl.
  - destruct b; reflexivity.
  - change (String c a +:+ b) with (String c (a +:+ b)). rewrite IH. reflexivity.
Qed.

Lemma substring_app_r (a b : string) :
  substring (String.length a) (String.length b) (a +:+ b) = b.
Proof.
  induction a as [|c a IH]; simpl.
  - apply substring_all.
  - change (String c a +:+ b) with (String c (a +:+ b)). exact IH.
Qed.

Lemma string_length_app (a b : string) :
  String.length (a +:+ b) = (String.length a + String.length b)%nat.
Proof.
  induction a as [|c a IH]; simpl; [reflexivity|].
  change (String c a +:+ b) with (String c (a +:+ b)). simpl. rewrite IH. reflexivity.
Qed.

Lemma has_byte_app (c : ascii) (u p : string) :
  has_byte c (u +:+ String c p) = true.
Proof.
  unfold has_byte. induction u as [|d u IH].
  - cbv [String.append]. simpl. rewrite Ascii.eqb_refl. reflexivity.
  - change (String d u +:+ String c p) with (String d (u +:+ String c p)).
    simpl. rewrite IH. apply orb_true_r.
Qed.

Section Credentials.
Context `{lib : NetLib}.

(** The user name [r.BasicAuth()] gives never holds a colon. *)
Lemma Request_BasicAuth_user (r : Request) (user pass : string) (ok : bool) :
  Request_BasicAuth r = (user, pass, ok) -> has_byte ":"%char user = false.
Proof.
  unfold Request_BasicAuth, parseBasicAuth.
  destruct (String.eqb _ EmptyString); [intros H; injection H as <- _ _; reflexivity|].
  destruct (_ || _); [intros H; injection H as <- _ _; reflexivity|].
  destruct (base64_DecodeString _) as [cs|]; [|intros H; injection H as <- _ _; reflexivity].
  destruct (strings_Cut cs ":"%char) as [[u p] found] eqn:Hcut.
  destruct found; intros H; injection H as <- _ _; [|reflexivity].
  apply (strings_Cut_found cs ":"%char u p Hcut).
Qed.

(** X2. A configured user name with a colon in it locks the route: whatever the
    request, the gate rejects it and the wrapped handler does not run. *)
Theorem colon_in_user_rejects_all (handler : Handler) (r : Request) (w : World) :
  has_byte ":"%char (ExampleBasicAuthUser (Config_ (config (srv w)))) = true ->
  requireBasicAuth handler r w = unauthorized (fst (fst (Request_BasicAuth r))) r w
  /\ (w_wrote (rw w) = None ->
      w_status (rw (requireBasicAuth handler r w)) = Some 401).
Proof.
  intros Hcolon.
  destruct (Request_BasicAuth r) as [[user pass] ok] eqn:Hba.
  assert (Heq : requireBasicAuth handler r w = unauthorized user r w).
  { rewrite (requireBasicAuth_unfold handler r w user pass ok Hba).
    destruct (String.eqb_spec user (ExampleBasicAuthUser (Config_ (config (srv w)))))
      as [Hu|Hu].
    - pose proof (Request_BasicAuth_user r user pass ok Hba) as Hno.
      rewrite Hu, Hcolon in Hno. discriminate.
    - rewrite andb_false_r. reflexivity. }
  split; [exact Heq|].
  intros Hw. rewrite Heq. simpl. apply http_Error_fresh. exact Hw.
Qed.

(** X3. A header that does not parse as basic credentials (missing, shorter than
    the scheme, another scheme, not base64, or without a colon once decoded)
    is rejected, and the user name logged is the empty string. *)
Theorem unparsed_header_rejected (handler : Handler) (r : Request) (w : World) :
  let auth := Header_Get (Header r) "Authorization" in
  let rest := substring 6 (String.length auth - 6) auth in
  (auth = EmptyString
   \/ (String.length auth < 6)%nat
   \/ ascii_EqualFold (substring 0 6 auth) "Basic " = false
   \/ base64_DecodeString rest = None
   \/ (exists cs, base64_DecodeString rest = Some cs /\ has_byte ":"%char cs = false)) ->
  Request_BasicAuth r = (EmptyString, EmptyString, false)
  /\ requireBasicAuth handler r w = unauthorized EmptyString r w.
Proof.
  intros auth rest Hcase.
  assert (Hba : Request_BasicAuth r = (EmptyString, EmptyString, false)).
  { unfold Request_BasicAuth, parseBasicAuth. fold auth.
    destruct (String.eqb_spec auth EmptyString) as [|Hne]; [reflexivity|].
    change (String.length "Basic ") with 6%nat. fold rest.
    destruct Hcase as [H|[H|[H|[H|(cs & H & Hcs)]]]].
    - contradiction.
    - apply Nat.ltb_lt in H. rewrite H. reflexivity.
    - rewrite H. rewrite orb_true_r. reflexivity.
    - destruct (_ || _); [reflexivity|]. rewrite H. reflexivity.
    - destruct (_ || _); [reflexivity|]. rewrite H.
      destruct (strings_Cut cs ":"%char) as [[u p] found] eqn:Hcut.
      destruct found; [|reflexivity].
      destruct (strings_Cut_found cs ":"%char u p Hcut) as [-> _].
      rewrite has_byte_app in Hcs. discriminate. }
  split; [exact Hba|].
  rewrite (requireBasicAuth_unfold handler r w _ _ _ Hba). reflexivity.
Qed.

(** X4. The credentials that pass: a header made of the scheme "Basic " in any
    letter case and the base64 text of the configured user, a colon and the
    configured password. The password may hold colons, the user not. *)
Theorem configured_credentials_pass
    (handler : Handler) (r : Request) (w : World) (scheme enc : string) :
  let cfg := Config_ (config (srv w)) in
  Header_Get (Header r) "Authorization" = scheme +:+ enc ->
  String.length scheme = 6%nat ->
  ascii_EqualFold scheme "Basic " = true ->
  has_byte ":"%char (ExampleBasicAuthUser cfg) = false ->
  base64_DecodeString enc
  = Some (ExampleBasicAuthUser cfg +:+ String ":"%char (ExampleBasicAuthPassword cfg)) ->
  Request_BasicAuth r = (ExampleBasicAuthUser cfg, ExampleBasicAuthPassword cfg, true)
  /\ requireBasicAuth handler r w
     = handler r (log_Info "authorized request"
                    (request_attrs r ++ [("user", anyString (ExampleBasicAuthUser cfg))])%list
                    w).
Proof.
  intros cfg Hauth Hlen Hfold Hcolon Hdec.
  assert (Hba : Request_BasicAuth r
                = (ExampleBasicAuthUser cfg, ExampleBasicAuthPassword cfg, true)).
  { unfold Request_BasicAuth, parseBasicAuth. rewrite Hauth.
    destruct (String.eqb_spec (scheme +:+ enc) EmptyString) as [He|_].
    { apply (f_equal String.length) in He. rewrite string_length_app, Hlen in He. discriminate. }
    change (String.length "Basic ") with 6%nat.
    assert (H1 : substring 0 6 (scheme +:+ enc) = scheme)
      by (rewrite <- Hlen; apply substring_app_l).
    assert (H2 : substring 6 (String.length (scheme +:+ enc) - 6) (scheme +:+ enc) = enc).
    { rewrite string_length_app, Hlen.
      replace (6 + String.length enc - 6)%nat with (String.length enc) by lia.
      rewrite <- Hlen. apply substring_app_r. }
    assert (H3 : (String.length (scheme +:+ enc) <? 6)%nat = false)
      by (apply Nat.ltb_ge; rewrite string_length_app; lia).
    rewrite H1, H2, H3, Hfold, Hdec. simpl.
    rewrite (strings_Cut_app _ _ _ Hcolon). reflexivity. }
  split; [exact Hba|].
  rewrite (requireBasicAuth_unfold handler r w _ _ _ Hba). fold cfg.
  rewrite !String.eqb_refl. reflexivity.
Qed.

End Credentials.

Lemma colon_in_user_rejects_all_witness :
  let w := mkWorld (new_server [] cfg_colon_user) newResponseWriter in
  let r := Examples.get "/" Examples.good_auth in
  has_byte ":"%char (ExampleBasicAuthUser (Config_ (config (srv w)))) = true
  /\ w_wrote (rw w) = None
  /\ w_status (rw (requireBasicAuth (lib := Examples.lib) NotFoundHandler r w)) = Some 401.
Proof.
  intros w r. split; [reflexivity|]. split; [reflexivity|].
  destruct (colon_in_user_rejects_all (lib := Examples.lib) NotFoundHandler r w eq_refl)
    as [_ H].
  apply H. reflexivity.
Defined.

Lemma unparsed_header_rejected_witness :
  let r := Examples.get "/" bearer_auth in
  let w := Examples.fresh (Examples.server_with_ready true) in
  ascii_EqualFold (substring 0 6 (Header_Get (Header r) "Authorization")) "Basic " = false
  /\ Request_BasicAuth (lib := Examples.lib) r = (EmptyString, EmptyString, false).
Proof.
  intros r w. split; [vm_compute; reflexivity|].
  apply (unparsed_header_rejected (lib := Examples.lib) NotFoundHandler r w).
  right. right. left. vm_compute. reflexivity.
Defined.

Lemma configured_credentials_pass_witness :
  let r := Examples.get "/" mixed_case_auth in
  let w := Examples.fresh (Examples.server_with_ready false) in
  Header_Get (Header r) "Authorization" = "bAsIc " +:+ "YWRtaW46czNjcmV0"
  /\ ascii_EqualFold "bAsIc " "Basic " = true
  /\ base64_DecodeString (NetLib := Examples.lib) "YWRtaW46czNjcmV0"
     = Some ("admin" +:+ String ":"%char "s3cret")
  /\ Request_BasicAuth (lib := Examples.lib) r = ("admin", "s3cret", true).
Proof.
  intros r w. split; [vm_compute; reflexivity|]. split; [vm_compute; reflexivity|].
  split; [vm_compute; reflexivity|].
  apply (configured_credentials_pass (lib := Examples.lib) NotFoundHandler r w
           "bAsIc " "YWRtaW46czNjcmV0"); vm_compute; reflexivity.
Defined.

(** ** What the log shows and what the gates keep *)

Section Logging.
Context `{lib : NetLib}.

(** The URL a log record shows does not depend on the password in the
    request URL. *)
Lemma URL_Redacted_password (u : url_URL) (p1 p2 : string) :
  URL_Redacted (with_password p1 u) = URL_Redacted (with_password p2 u).
Proof.
  unfold URL_Redacted, with_password.
  destruct (User u) as [ui|] eqn:Hu; simpl; [reflexivity|].
  rewrite Hu. reflexivity.
Qed.

(** X5. Two requests that differ only in the password of the URL leave the same
    trace: [logger] runs the wrapped handler on the same world for both;
    a rejection by [onlyWhenReady] leaves the same world for both; and
    [requireBasicAuth], whatever [r.BasicAuth()] gives, leaves the same world
    for both on every rejection (header missing or not parsed, wrong user,
    wrong password), and runs the wrapped handler on the same world for both
    when the credentials are the configured ones. *)
Theorem log_hides_URL_password
    (r : Request) (u : url_URL) (p1 p2 : string) (handler : Handler) (w : World) :
  let r1 := with_URL (with_password p1 u) r in
  let r2 := with_URL (with_password p2 u) r in
  (exists w', logger handler r1 w = handler r1 w' /\ logger handler r2 w = handler r2 w')
  /\ (ready (srv w) = false ->
      onlyWhenReady handler r1 w = onlyWhenReady handler r2 w)
  /\ (forall user pass ok,
        Request_BasicAuth r = (user, pass, ok) ->
        let cfg := Config_ (config (srv w)) in
        Request_BasicAuth r1 = (user, pass, ok)
        /\ Request_BasicAuth r2 = (user, pass, ok)
        /\ (ok = false
            \/ user <> ExampleBasicAuthUser cfg
            \/ pass <> ExampleBasicAuthPassword cfg ->
            requireBasicAuth handler r1 w = requireBasicAuth handler r2 w)
        /\ (ok = true ->
            user = ExampleBasicAuthUser cfg ->
            pass = ExampleBasicAuthPassword cfg ->
            exists w',
              requireBasicAuth handler r1 w = handler r1 w'
              /\ requireBasicAuth handler r2 w = handler r2 w')).
Proof.
  intros r1 r2.
  assert (Hattrs : request_attrs r1 = request_attrs r2).
  { unfold request_attrs, r1, r2. simpl.
    rewrite (URL_Redacted_password u p1 p2). reflexivity. }
  split; [|split].
  - exists (log_Info "request" (request_attrs r2) w).
    unfold logger, andThen. rewrite Hattrs. split; reflexivity.
  - intros Hr. rewrite !onlyWhenReady_not_ready by exact Hr.
    rewrite Hattrs. reflexivity.
  - intros user pass ok Hba cfg.
    assert (Hb1 : Request_BasicAuth r1 = (user, pass, ok)) by exact Hba.
    assert (Hb2 : Request_BasicAuth r2 = (user, pass, ok)) by exact Hba.
    split; [exact Hb1|]. split; [exact Hb2|].
    rewrite (requireBasicAuth_unfold handler r1 w _ _ _ Hb1).
    rewrite (requireBasicAuth_unfold handler r2 w _ _ _ Hb2).
    fold cfg. split.
    + intros Hrej.
      assert (Hno : ok && String.eqb user (ExampleBasicAuthUser cfg)
                       && String.eqb pass (ExampleBasicAuthPassword cfg) = false).
      { destruct Hrej as [-> | [Hu | Hp]].
        - reflexivity.
        - apply String.eqb_neq in Hu. rewrite Hu, andb_false_r. reflexivity.
        - apply String.eqb_neq in Hp. rewrite Hp, andb_false_r. reflexivity. }
      rewrite Hno, Hattrs. reflexivity.
    + intros -> Hu Hp. rewrite Hu, Hp, !String.eqb_refl. cbn [andb].
      eexists. rewrite Hattrs. split; reflexivity.
Qed.

(** X6. The gates write no health flag and do not touch the configuration; to
    the log they only append. When the wrapped handlers do the same, so does
    each of [logger], [onlyWhenReady], [requireBasicAuth] and
    [upgradeHandler] around them. *)
Theorem gates_keep_server (h h' : Handler) :
  keeps_server h -> keeps_server h' ->
  keeps_server (logger h)
  /\ keeps_server (onlyWhenReady h)
  /\ keeps_server (requireBasicAuth h)
  /\ keeps_server (upgradeHandler h h')
  /\ keeps_server NotFoundHandler.
Proof.
  intros Hh Hh'.
  assert (Hlog : forall msg attrs r w,
            let w1 := log_Info msg attrs w in
            health (srv (h r w1)) = health (srv w)
            /\ config (srv (h r w1)) = config (srv w)
            /\ exists l, log (srv (h r w1)) = (log (srv w) ++ l)%list).
  { intros msg attrs r w w1. destruct (Hh r w1) as (Hf & Hc & l & Hl).
    split; [exact Hf|]. split; [exact Hc|].
    exists (mkLogRecord LevelInfo msg attrs :: l).
    rewrite Hl. unfold w1. simpl. rewrite <- app_assoc. reflexivity. }
  split; [|split; [|split; [|split]]].
  - intros r w. unfold logger, andThen. apply Hlog.
  - intros r w. unfold onlyWhenReady.
    destruct (ready (srv w)); simpl; [apply Hh|].
    unfold andThen. simpl. repeat split. eexists. reflexivity.
  - intros r w.
    destruct (Request_BasicAuth r) as [[user pass] ok] eqn:Hba.
    rewrite (requireBasicAuth_unfold h r w user pass ok Hba).
    destruct (ok && _ && _).
    + apply (Hlog "authorized request").
    + simpl. repeat split. eexists. reflexivity.
  - intros r w. unfold upgradeHandler. destruct (_ && _); [apply Hh'|apply Hh].
  - intros r w. unfold NotFoundHandler, NotFound, on_rw. simpl.
    repeat split. exists []. rewrite app_nil_r. reflexivity.
Qed.

End Logging.

Lemma log_hides_URL_password_witness :
  let u := mkURL "http" (Some (mkUserinfo "bob" "old" true)) "h" "/x"
                 EmptyString EmptyString EmptyString in
  let r := Examples.get "/x" Examples.no_header in
  let rb := Examples.get "/x" Examples.bad_auth in
  let rg := Examples.get "/x" Examples.good_auth in
  let w := Examples.fresh (Examples.server_with_ready false) in
  ready (srv w) = false
  /\ onlyWhenReady (lib := Examples.lib) NotFoundHandler (with_URL (with_password "hunter2" u) r) w
     = onlyWhenReady (lib := Examples.lib) NotFoundHandler (with_URL (with_password "pa55" u) r) w
  /\ Request_BasicAuth (lib := Examples.lib) rb = ("admin", "wrong", true)
  /\ "wrong" <> ExampleBasicAuthPassword (Config_ (config (srv w)))
  /\ requireBasicAuth (lib := Examples.lib) NotFoundHandler
       (with_URL (with_password "hunter2" u) rb) w
     = requireBasicAuth (lib := Examples.lib) NotFoundHandler
         (with_URL (with_password "pa55" u) rb) w
  /\ Request_BasicAuth (lib := Examples.lib) rg = ("admin", "s3cret", true)
  /\ (exists w',
        requireBasicAuth (lib := Examples.lib) NotFoundHandler
          (with_URL (with_password "hunter2" u) rg) w
        = NotFoundHandler (with_URL (with_password "hunter2" u) rg) w'
        /\ requireBasicAuth (lib := Examples.lib) NotFoundHandler
             (with_URL (with_password "pa55" u) rg) w
           = NotFoundHandler (with_URL (with_password "pa55" u) rg) w').
Proof.
  intros u r rb rg w. split; [reflexivity|].
  assert (Hbad : Request_BasicAuth (lib := Examples.lib) rb = ("admin", "wrong", true))
    by (vm_compute; reflexivity).
  assert (Hgood : Request_BasicAuth (lib := Examples.lib) rg = ("admin", "s3cret", true))
    by (vm_compute; reflexivity).
  assert (Hneq : "wrong" <> ExampleBasicAuthPassword (Config_ (config (srv w))))
    by (vm_compute; discriminate).
  split.
  - destruct (log_hides_URL_password (lib := Examples.lib) r u "hunter2" "pa55"
                NotFoundHandler w) as (_ & H & _).
    apply H. reflexivity.
  - split; [exact Hbad|]. split; [exact Hneq|]. split; [|split; [exact Hgood|]].
    + destruct (log_hides_URL_password (lib := Examples.lib) rb u "hunter2" "pa55"
                  NotFoundHandler w) as (_ & _ & H).
      destruct (H "admin" "wrong" true Hbad) as (_ & _ & Hrej & _).
      apply Hrej. right. right. exact Hneq.
    + destruct (log_hides_URL_password (lib := Examples.lib) rg u "hunter2" "pa55"
                  NotFoundHandler w) as (_ & _ & H).
      destruct (H "admin" "s3cret" true Hgood) as (_ & _ & _ & Hyes).
      apply Hyes; vm_compute; reflexivity.
Defined.

Lemma gates_keep_server_witness :
  keeps_server NotFoundHandler
  /\ keeps_server (requireBasicAuth (lib := Examples.lib) NotFoundHandler).
Proof.
  assert (Hnf : keeps_server NotFoundHandler).
  { intros r w. unfold NotFoundHandler, NotFound, on_rw. simpl.
    repeat split. exists []. rewrite app_nil_r. reflexivity. }
  split; [exact Hnf|].
  destruct (gates_keep_server (lib := Examples.lib) NotFoundHandler NotFoundHandler Hnf Hnf)
    as (_ & _ & H & _).
  exact H.
Defined.

(** ** The other routes of [New] *)

Lemma ends_with_slash_app (p : string) : ends_with_slash (p +:+ "/") = true.
Proof.
  unfold ends_with_slash, last_byte.
  induction p as [|c p IH]; [reflexivity|].
  change (String c p +:+ "/") with (String c (p +:+ "/")).
  simpl. destruct (list_ascii_of_string (p +:+ "/")) eqn:Hl; [|exact IH].
  destruct p; discriminate Hl.
Qed.

Lemma app_slash_inj (p q : string) : p +:+ "/" = q +:+ "/" -> p = q.
Proof.
  revert q. induction p as [|c p IH]; intros [|d q] H.
  - reflexivity.
  - cbv [String.append] in H. injection H as _ H. destruct q; discriminate H.
  - cbv [String.append] in H. injection H as _ H. destruct p; discriminate H.
  - change (String c (p +:+ "/") = String d (q +:+ "/")) in H.
    injection H as -> H. f_equal. apply IH. exact H.
Qed.

Lemma eqb_app_slash (pat p : string) :
  (ends_with_slash pat = false \/ (exists q, pat = q +:+ "/" /\ p <> q)) ->
  String.eqb pat (p +:+ "/") = false.
Proof.
  intros H. apply String.eqb_neq. intros Heq. destruct H as [H|(q & Hq & Hne)].
  - rewrite Heq, ends_with_slash_app in H. discriminate.
  - rewrite Hq in Heq. apply app_slash_inj in Heq. congruence.
Qed.

Section MoreRoutes.
Context `{lib : NetLib} `{col : Collaborators}.
Variable proxy : Handler.

Lemma handler_static (rest : string) :
  ServeMux_handler (routes proxy) ("/static/" +:+ rest)
  = StripPrefix "/static/" staticFileServer.
Proof. unfold_routes. destruct rest as [|c rest]; cbn; reflexivity. Qed.

Lemma no_redirect_static (rest : string) :
  shouldRedirect (routes proxy) ("/static/" +:+ rest) = false.
Proof. unfold_routes. destruct rest as [|c rest]; cbn; reflexivity. Qed.

Lemma StripPrefix_static (h : Handler) (r : Request) (rest : string) (w : World) :
  Path (URL r) = "/static/" +:+ rest -> RawPath (URL r) = EmptyString ->
  StripPrefix "/static/" h r w = h (with_paths rest EmptyString r) w.
Proof.
  intros Hp Hr. unfold StripPrefix. cbn. rewrite Hp, Hr.
  unfold strings_TrimPrefix, strings_HasPrefix. cbv [String.append]. cbn.
  replace (String.prefix EmptyString rest) with true by (destruct rest; reflexivity).
  rewrite Nat.sub_0_r, substring_all.
  replace (String.length rest <=? S (S (S (S (S (S (S (String.length rest))))))))%nat
    with true; [reflexivity|].
  symmetry. apply Nat.leb_le. lia.
Qed.

(** X7. The routes that no gate guards: "/metrics", "/favicon.ico" and the
    subtree "/static/" reach their handlers whatever the health flags and the
    Authorization header are, and this package writes no log record for
    them. Under "/static/" the file server sees the path without that
    prefix. *)
Theorem ungated_routes (r : Request) (w : World) :
  RequestURI r <> "*" ->
  (Method r = "CONNECT" \/ cleanPath (Path (URL r)) = Path (URL r)) ->
  (ProtoMajor r =? 2)%Z
    && String.eqb (Header_Get (Header r) "Content-Type") "application/grpc" = false ->
  (Path (URL r) = "/metrics" -> root_handler proxy r w = promhttp_Handler r w)
  /\ (Path (URL r) = "/favicon.ico" -> root_handler proxy r w = staticFileServer r w)
  /\ (forall rest,
        Path (URL r) = "/static/" +:+ rest -> RawPath (URL r) = EmptyString ->
        root_handler proxy r w
        = staticFileServer (with_paths rest EmptyString r) w).
Proof.
  intros Huri Hclean Hgrpc. unfold root_handler, upgradeHandler. rewrite Hgrpc.
  split; [|split].
  - intros Hp. rewrite ServeMux_ServeHTTP_direct; try assumption; rewrite Hp; reflexivity.
  - intros Hp. rewrite ServeMux_ServeHTTP_direct; try assumption; rewrite Hp; reflexivity.
  - intros rest Hp Hraw. rewrite ServeMux_ServeHTTP_direct; try assumption.
    + rewrite Hp, handler_static. apply StripPrefix_static; assumption.
    + rewrite Hp. apply no_redirect_static.
Qed.

Lemma prefix_refl_false (pat p : string) :
  strings_HasPrefix p pat = false -> String.eqb pat p = false.
Proof.
  intros H. apply String.eqb_neq. intros ->.
  unfold strings_HasPrefix in H.
  assert (Ht : String.prefix p p = true).
  { apply prefix_correct. apply substring_all. }
  rewrite Ht in H. discriminate.
Qed.

Lemma handler_unclaimed (p : string) :
  unclaimed p ->
  ServeMux_handler (routes proxy) p = requireBasicAuth NotFoundHandler
  /\ shouldRedirect (routes proxy) p = false.
Proof.
  intros (Hroot & Hfav & Hmet & Hs & Hsp & Ha & Hap & Hx & Hxp).
  assert (Efav : String.eqb "/favicon.ico" p = false) by (apply String.eqb_neq; congruence).
  assert (Emet : String.eqb "/metrics" p = false) by (apply String.eqb_neq; congruence).
  pose proof (prefix_refl_false _ _ Hsp) as Es.
  pose proof (prefix_refl_false _ _ Hap) as Ea.
  pose proof (prefix_refl_false _ _ Hxp) as Ex.
  assert (Hne : p <> EmptyString) by (intros ->; discriminate Hroot).
  split.
  - unfold ServeMux_handler, ServeMux_match, mux_exact, routes, routes_before_proxy,
      ServeMux_Handle.
    cbn [app List.find List.filter fst snd].
    rewrite Efav, Emet, Es, Ea, Ex, Hroot, Hsp, Hap, Hxp.
    destruct (String.eqb "/" p); [reflexivity|].
    cbn. reflexivity.
  - unfold shouldRedirect, mux_exact, routes, routes_before_proxy, ServeMux_Handle.
    cbn [app List.find fst snd].
    rewrite Efav, Emet, Es, Ea, Ex.
    destruct (String.eqb "/" p); [reflexivity|].
    destruct (String.eqb_spec p EmptyString) as [|_]; [contradiction|].
    rewrite (eqb_app_slash "/" p)
      by (right; exists EmptyString; split; [reflexivity|exact Hne]).
    rewrite (eqb_app_slash "/favicon.ico" p) by (left; reflexivity).
    rewrite (eqb_app_slash "/metrics" p) by (left; reflexivity).
    rewrite (eqb_app_slash "/static/" p)
      by (right; exists "/static"; split; [reflexivity|exact Hs]).
    rewrite (eqb_app_slash "/api/" p)
      by (right; exists "/api"; split; [reflexivity|exact Ha]).
    rewrite (eqb_app_slash "/examplereverseproxy/" p)
      by (right; exists "/examplereverseproxy"; split; [reflexivity|exact Hx]).
    reflexivity.
Qed.

(** X8. The root route catches what is left: a request whose path no other
    pattern claims is answered by the basic-auth gate around the not-found
    handler, so it gets 401 without the configured credentials and 404 with
    them, and nothing else. *)
Theorem root_route_catches_unclaimed (r : Request) (w : World) :
  unclaimed (Path (URL r)) ->
  RequestURI r <> "*" ->
  (Method r = "CONNECT" \/ cleanPath (Path (URL r)) = Path (URL r)) ->
  (ProtoMajor r =? 2)%Z
    && String.eqb (Header_Get (Header r) "Content-Type") "application/grpc" = false ->
  root_handler proxy r w = requireBasicAuth NotFoundHandler r w
  /\ (w_wrote (rw w) = None ->
      w_status (rw (root_handler proxy r w)) = Some 401
      \/ w_status (rw (root_handler proxy r w)) = Some 404).
Proof.
  intros Hun Huri Hclean Hgrpc.
  destruct (handler_unclaimed _ Hun) as [Hh Hred].
  assert (Heq : root_handler proxy r w = requireBasicAuth NotFoundHandler r w).
  { unfold root_handler, upgradeHandler. rewrite Hgrpc.
    rewrite ServeMux_ServeHTTP_direct by assumption. rewrite Hh. reflexivity. }
  split; [exact Heq|].
  intros Hw. rewrite Heq.
  destruct (Request_BasicAuth r) as [[user pass] ok] eqn:Hba.
  rewrite (requireBasicAuth_unfold NotFoundHandler r w user pass ok Hba).
  destruct (ok && _ && _).
  - right. simpl. apply http_Error_fresh. exact Hw.
  - left. simpl. apply http_Error_fresh. exact Hw.
Qed.

(** X9. Requests the mux answers itself. A request other than CONNECT whose path
    is not in canonical form, and any request for "/api", "/static" or
    "/examplereverseproxy" without the closing slash, is given to a redirect
    handler with status 301: no gate, logger or route handler of this
    package runs. The request URI "*" is answered 400. *)
Theorem mux_answers_itself (r : Request) (w : World) :
  (ProtoMajor r =? 2)%Z
    && String.eqb (Header_Get (Header r) "Content-Type") "application/grpc" = false ->
  (RequestURI r <> "*" -> Method r <> "CONNECT" ->
   cleanPath (Path (URL r)) <> Path (URL r) ->
   exists target,
     root_handler proxy r w = RedirectHandler target StatusMovedPermanently r w)
  /\ (RequestURI r <> "*" ->
      (Method r = "CONNECT" \/ cleanPath (Path (URL r)) = Path (URL r)) ->
      Path (URL r) = "/api" \/ Path (URL r) = "/static"
      \/ Path (URL r) = "/examplereverseproxy" ->
      root_handler proxy r w
      = RedirectHandler
          (URL_String (redirect_URL (Path (URL r) +:+ "/") (RawQuery (URL r))))
          StatusMovedPermanently r w)
  /\ (RequestURI r = "*" -> w_wrote (rw w) = None ->
      w_status (rw (root_handler proxy r w)) = Some 400
      /\ srv (root_handler proxy r w) = srv w).
Proof.
  intros Hgrpc. unfold root_handler, upgradeHandler. rewrite Hgrpc.
  unfold ServeMux_ServeHTTP, ServeMux_Handler.
  split; [|split].
  - intros Huri Hm Hc.
    destruct (String.eqb_spec (RequestURI r) "*") as [|_]; [contradiction|].
    destruct (String.eqb_spec (Method r) "CONNECT") as [|_]; [contradiction|].
    destruct (shouldRedirect _ _); [eexists; reflexivity|].
    destruct (String.eqb_spec (cleanPath (Path (URL r))) (Path (URL r))) as [|_];
      [contradiction|].
    simpl. eexists. reflexivity.
  - intros Huri Hclean Hp.
    destruct (String.eqb_spec (RequestURI r) "*") as [|_]; [contradiction|].
    assert (Hred : shouldRedirect (routes proxy) (Path (URL r)) = true).
    { destruct Hp as [-> | [-> | ->]]; unfold_routes; cbn; reflexivity. }
    destruct (String.eqb_spec (Method r) "CONNECT") as [Hm|Hm].
    + rewrite Hred. reflexivity.
    + destruct Hclean as [|Hc]; [contradiction|]. rewrite Hc, Hred. reflexivity.
  - intros Huri Hw. rewrite Huri. simpl.
    unfold on_rw. simpl. split; [|reflexivity].
    unfold w_status, WriteHeader.
    destruct (ProtoAtLeast r 1 1); simpl; rewrite Hw; reflexivity.
Qed.

End MoreRoutes.

Lemma ungated_routes_witness :
  let h := root_handler (lib := Examples.lib) (col := Examples.col)
             (Examples.answer "proxy") in
  let r := Examples.get "/static/app.js" Examples.no_header in
  let w := Examples.fresh (Examples.server_with_ready false) in
  RequestURI r <> "*"
  /\ cleanPath (Path (URL r)) = Path (URL r)
  /\ Path (URL r) = "/static/" +:+ "app.js"
  /\ h r w = Examples.answer "static" (with_paths "app.js" EmptyString r) w.
Proof.
  intros h r w.
  assert (Huri : RequestURI r <> "*") by discriminate.
  split; [exact Huri|]. split; [reflexivity|]. split; [reflexivity|].
  destruct (ungated_routes (lib := Examples.lib) (col := Examples.col)
              (Examples.answer "proxy") r w Huri (or_intror eq_refl) eq_refl)
    as (_ & _ & Hstatic).
  apply (Hstatic "app.js"); reflexivity.
Defined.

Lemma root_route_catches_unclaimed_witness :
  let h := root_handler (lib := Examples.lib) (col := Examples.col)
             (Examples.answer "proxy") in
  let r := Examples.get "/admin/users" Examples.good_auth in
  let w := Examples.fresh (Examples.server_with_ready false) in
  unclaimed (Path (URL r))
  /\ RequestURI r <> "*"
  /\ h r w = requireBasicAuth (lib := Examples.lib) NotFoundHandler r w.
Proof.
  intros h r w.
  assert (Hun : unclaimed (Path (URL r))).
  { unfold unclaimed. repeat split; try discriminate; reflexivity. }
  assert (Huri : RequestURI r <> "*") by discriminate.
  split; [exact Hun|]. split; [exact Huri|].
  apply (root_route_catches_unclaimed (lib := Examples.lib) (col := Examples.col)
           (Examples.answer "proxy") r w Hun Huri (or_intror eq_refl) eq_refl).
Defined.

Lemma mux_answers_itself_witness :
  let h := root_handler (lib := Examples.lib) (col := Examples.col)
             (Examples.answer "proxy") in
  let r := Examples.get "/api/../metrics" Examples.no_header in
  let w := Examples.fresh (Examples.server_with_ready true) in
  RequestURI r <> "*" /\ Method r <> "CONNECT"
  /\ cleanPath (Path (URL r)) <> Path (URL r)
  /\ exists target, h r w = Examples.redirect target 301 r w.
Proof.
  intros h r w.
  assert (Huri : RequestURI r <> "*") by discriminate.
  assert (Hm : Method r <> "CONNECT") by discriminate.
  assert (Hc : cleanPath (Path (URL r)) <> Path (URL r)) by (vm_compute; discriminate).
  split; [exact Huri|]. split; [exact Hm|]. split; [exact Hc|].
  destruct (mux_answers_itself (lib := Examples.lib) (col := Examples.col)
              (Examples.answer "proxy") r w eq_refl) as (H & _).
  exact (H Huri Hm Hc).
Defined.

(** ** Construction, in full *)

Section Outcomes.
Context `{lib : NetLib} `{col : Collaborators}.

(** X10. The three ways [New] ends. It returns an error exactly when the gateway
    registration fails, and then the proxy URL is not looked at. Otherwise it
    panics, with the proxy URL as value and one error record added to the
    log, exactly when that URL does not parse. Otherwise it returns a server
    with the five flags false, the log as it was and the address joined from
    host and port. *)
Theorem New_outcomes (log0 : list LogRecord) (cfg : Config) :
  let rawURL := ExampleReverseProxyURL cfg in
  let s := new_server log0 cfg in
  match snd (New log0 cfg) with
  | Returned (Err e) =>
      fst (New log0 cfg) = s
      /\ exists err, RegisterAPIHandlerFromEndpoint = Some err
                     /\ e = wrapError "failed to register gateway" err
  | Panicked v =>
      RegisterAPIHandlerFromEndpoint = None /\ v = rawURL
      /\ exists err,
           url_Parse rawURL = Err err
           /\ log (fst (New log0 cfg))
              = (log0 ++ [mkLogRecord LevelError "failed to parse reverse proxy url"
                            [("rawURL", anyString rawURL); ("error", anyError err)]])%list
           /\ health (fst (New log0 cfg)) = (false, false, false, false, false)
  | Returned (Ok b) =>
      RegisterAPIHandlerFromEndpoint = None
      /\ (exists url, url_Parse rawURL = Ok url
                      /\ b_mux b = routes (reverseProxy (ReverseProxy_ServeHTTP url)))
      /\ fst (New log0 cfg) = s /\ b_server b = s
      /\ health s = (false, false, false, false, false)
      /\ log s = log0
      /\ Addr (b_httpServer b)
         = net_JoinHostPort (HttpHost cfg) (pretty (HttpPort cfg))
  end
  /\ (forall err, RegisterAPIHandlerFromEndpoint = Some err ->
        New log0 cfg = (s, Returned (Err (wrapError "failed to register gateway" err)))).
Proof.
  intros rawURL s. unfold New. fold s. fold rawURL.
  destruct RegisterAPIHandlerFromEndpoint as [err|] eqn:Hreg.
  - simpl. split; [|intros e He; injection He as <-; reflexivity].
    split; [reflexivity|]. exists err. auto.
  - split; [|intros e He; discriminate He].
    unfold mustReverseProxy. destruct (url_Parse rawURL) as [url|err] eqn:Hp; simpl.
    + split; [reflexivity|]. split; [exists url; auto|]. repeat split.
    + split; [reflexivity|]. split; [reflexivity|]. exists err. repeat split.
Qed.

End Outcomes.

(** ** Durations *)

Lemma wrap64_range (z : Z) : - 2 ^ 63 <= wrap64 z < 2 ^ 63.
Proof.
  unfold wrap64. pose proof (Z.mod_pos_bound (z + 2 ^ 63) (2 ^ 64) ltac:(lia)). lia.
Qed.

Lemma wrap64_small (z : Z) : - 2 ^ 63 <= z < 2 ^ 63 -> wrap64 z = z.
Proof. intros H. unfold wrap64. rewrite Z.mod_small by lia. lia. Qed.

Lemma wrap64_above (z : Z) : 2 ^ 63 <= z < 2 ^ 64 -> wrap64 z = z - 2 ^ 64.
Proof.
  intros H. unfold wrap64.
  rewrite <- (Z.mod_unique (z + 2 ^ 63) (2 ^ 64) 1 (z + 2 ^ 63 - 2 ^ 64)); lia.
Qed.

(** X11. The two durations of [New] are the configured numbers of seconds in
    nanoseconds exactly up to 9223372036 seconds either way; beyond that the
    64-bit product wraps, and a period of up to twice that comes out
    negative. *)
Theorem durations_in_nanoseconds (cfg : Config) :
  let period := HttpShutdownGracePeriod cfg in
  - 2 ^ 63 <= period < 2 ^ 63 ->
  - 2 ^ 63 <= MonitorInterval cfg < 2 ^ 63 ->
  (shutdownTimeout (newServerConfig cfg) = period * 1000000000
   <-> - 9223372036 <= period <= 9223372036)
  /\ (monitorInterval (newServerConfig cfg) = MonitorInterval cfg * 1000000000
      <-> - 9223372036 <= MonitorInterval cfg <= 9223372036)
  /\ (9223372036 < period <= 18446744072 ->
      shutdownTimeout (newServerConfig cfg) = period * 1000000000 - 2 ^ 64
      /\ shutdownTimeout (newServerConfig cfg) < 0).
Proof.
  intros period Hp Hm. subst period.
  assert (Hiff : forall n, - 2 ^ 63 <= n < 2 ^ 63 ->
            (seconds n = n * 1000000000 <-> - 9223372036 <= n <= 9223372036)).
  { intros n Hn. unfold seconds, time_Second. rewrite (wrap64_small n Hn). split.
    - intros Heq. pose proof (wrap64_range (n * 1000000000)) as Hr. rewrite Heq in Hr.
      change (2 ^ 63) with 9223372036854775808 in Hr. lia.
    - intros Hb. apply wrap64_small. change (2 ^ 63) with 9223372036854775808. lia. }
  simpl. split; [apply Hiff; exact Hp|]. split; [apply Hiff; exact Hm|].
  intros Hbig. unfold seconds, time_Second. rewrite (wrap64_small _ Hp).
  rewrite wrap64_above.
  - split; [reflexivity|]. change (2 ^ 64) with 18446744073709551616. lia.
  - change (2 ^ 63) with 9223372036854775808.
    change (2 ^ 64) with 18446744073709551616. lia.
Qed.

Lemma durations_in_nanoseconds_witness :
  - 2 ^ 63 <= HttpShutdownGracePeriod Examples.cfg < 2 ^ 63
  /\ - 2 ^ 63 <= MonitorInterval Examples.cfg < 2 ^ 63
  /\ shutdownTimeout (newServerConfig Examples.cfg) = 10 * 1000000000.
Proof.
  assert (H1 : - 2 ^ 63 <= HttpShutdownGracePeriod Examples.cfg < 2 ^ 63)
    by (vm_compute; split; [discriminate|reflexivity]).
  assert (H2 : - 2 ^ 63 <= MonitorInterval Examples.cfg < 2 ^ 63)
    by (vm_compute; split; [discriminate|reflexivity]).
  split; [exact H1|]. split; [exact H2|].
  destruct (durations_in_nanoseconds Examples.cfg H1 H2) as (Hs & _ & _).
  apply Hs. vm_compute. split; discriminate.
Defined.

(** ** More of the life cycle *)

Section LifeCycleMore.
Variables (env : Env) (s0 : server).

(** X12. When [db.Connect] fails, [ListenAndServe] returns the wrapped error and
    nothing else of it runs: in every reachable state it stands before the
    call or at that return, the return is reached in one step, [Shutdown]
    is not called and [shutdownRequested] is untouched. *)
Theorem connect_failure_returns_error (st : lifecycle) (e : error) :
  db_Connect env = Some e ->
  reachable env s0 st ->
  (lc_main st = M_connect \/ lc_main st = M_returned (R_connect e))
  /\ (forall r, ListenAndServe_result st = Some r ->
                r = Some (wrapError "failed to connect to database" e))
  /\ (exists evs st',
        exec env evs st = Some st'
        /\ ListenAndServe_result st'
           = Some (Some (wrapError "failed to connect to database" e)))
  /\ lc_inShutdown st = false
  /\ shutdownRequested (lc_server st) = shutdownRequested s0.
Proof.
  intros Hc Hr. pose proof (reachable_inv env s0 st Hr) as Hinv.
  unfold lifecycle_inv in Hinv.
  destruct st as [s l m c b i n]. simpl in Hinv.
  destruct Hinv as (I1 & I2 & I3 & I4 & I5 & I6 & I7 & I8 & I9 & I10 & I11).
  unfold ListenAndServe_result. simpl.
  assert (Hm : m = M_connect \/ m = M_returned (R_connect e)).
  { destruct m as [| | | | | | | | | | |[]]; simpl in I9;
      try solve [left; reflexivity]; try solve [right; congruence];
      exfalso; try (destruct I9 as [I9 ?]); congruence. }
  split; [exact Hm|].
  destruct Hm as [-> | ->]; simpl in *.
  - split; [intros r H; discriminate H|]. split; [|split; [exact I4|exact I3]].
    exists [ev_main]. cbn [exec step]. unfold ListenAndServe. simpl. rewrite Hc.
    eexists. split; reflexivity.
  - split; [intros r H; injection H as <-; reflexivity|].
    split; [|split; [exact I4|exact I3]].
    exists []. eexists. split; reflexivity.
Qed.

(** X13. What [ListenAndServe] returns, over every run. An error is returned in
    two cases only: [db.Connect] failed, or the context was cancelled and
    [Shutdown] failed. Nil is returned after a migration failure, after
    [listenAndServe] has signalled [httpClosed] (a failed bind or an
    unexpected [Serve] error), or after a [Shutdown] without error. *)
Theorem ListenAndServe_return_values (st : lifecycle) (r : option error) :
  reachable env s0 st ->
  ListenAndServe_result st = Some r ->
  match r with
  | Some err =>
      (exists e, db_Connect env = Some e
                 /\ err = wrapError "failed to connect to database" e)
      \/ (exists e, db_Connect env = None /\ migrations_Migrate env = None
                    /\ lc_ctxErr st <> None
                    /\ httpServer_Shutdown env = Some e
                    /\ err = wrapError "error during http server shutdown" e)
  | None =>
      db_Connect env = None
      /\ ((exists e, migrations_Migrate env = Some e)
          \/ (migrations_Migrate env = None
              /\ listener_sent (lc_listener st) = true
              /\ lc_inShutdown st = false)
          \/ (migrations_Migrate env = None
              /\ lc_ctxErr st <> None /\ httpServer_Shutdown env = None))
  end.
Proof.
  intros Hr Hres. pose proof (reachable_inv env s0 st Hr) as Hinv.
  unfold lifecycle_inv in Hinv.
  destruct st as [s l m c b i n]. simpl in Hinv.
  destruct Hinv as (I1 & I2 & I3 & I4 & I5 & I6 & I7 & I8 & I9 & I10 & I11).
  unfold ListenAndServe_result in Hres. simpl in *.
  destruct m as [| | | | | | | | | | |[]]; try discriminate; injection Hres as <-;
    simpl in *.
  - left. eexists. split; [exact I9|reflexivity].
  - destruct I9 as (Hc & e & Hm & _). split; [exact Hc|]. left. eauto.
  - destruct I9 as (Hc & Hm). split; [exact Hc|]. right. left. auto.
  - destruct I9 as (Hc & Hm & Hs). right. exists err.
    repeat split; try assumption. apply I10. reflexivity.
  - destruct I9 as (Hc & Hm & Hs). split; [exact Hc|]. right. right.
    repeat split; try assumption. apply I10. reflexivity.
Qed.

(** X14. [shutdownRequested], false at the start, is true exactly from the
    [CompareAndSwap(false, true)] of [ListenAndServe] on, which only a
    cancelled context leads to; [Shutdown] is called only after it; and the
    return from [case <-s.httpClosed] leaves the flag false and [Shutdown]
    uncalled. *)
Theorem shutdownRequested_meaning (st : lifecycle) :
  shutdownRequested s0 = false ->
  reachable env s0 st ->
  shutdownRequested (lc_server st) = main_requested_shutdown (lc_main st)
  /\ (shutdownRequested (lc_server st) = true -> lc_ctxErr st <> None)
  /\ (lc_inShutdown st = true -> shutdownRequested (lc_server st) = true)
  /\ (lc_main st = M_returned R_closed ->
      shutdownRequested (lc_server st) = false /\ lc_inShutdown st = false).
Proof.
  intros H0 Hr. pose proof (reachable_inv env s0 st Hr) as Hinv.
  unfold lifecycle_inv in Hinv.
  destruct st as [s l m c b i n]. simpl in *.
  destruct Hinv as (I1 & I2 & I3 & I4 & I5 & I6 & I7 & I8 & I9 & I10 & I11).
  rewrite H0 in I3.
  assert (Hsr : shutdownRequested s = main_requested_shutdown m)
    by (rewrite I3; destruct (main_requested_shutdown m); reflexivity).
  split; [exact Hsr|]. split; [|split].
  - intros Ht. apply I10. rewrite Hsr in Ht.
    destruct m as [| | | | | | | | | | |[]]; simpl in *; congruence.
  - intros Hi. rewrite Hsr. rewrite I4 in Hi.
    destruct m as [| | | | | | | | | | |[]]; simpl in *; congruence.
  - intros ->. simpl in *. rewrite Hsr, I4. auto.
Qed.

(** Once [ListenAndServe] has returned, nothing receives from [httpClosed]:
    a [listenAndServe] that stands at its send stays there through every
    further event, and the state of the server stays as it is. *)
Lemma send_never_received (evs : list event) :
  forall st st',
    returned st ->
    (lc_listener st = L_send_bind \/ lc_listener st = L_send_serve) ->
    exec env evs st = Some st' ->
    lc_listener st' = lc_listener st /\ lc_main st' = lc_main st
    /\ lc_server st' = lc_server st.
Proof.
  induction evs as [|ev evs IH]; intros st st' Hret Hl He.
  - injection He as <-. auto.
  - cbn [exec] in He. destruct (step env ev st) as [st1|] eqn:Hs; [|discriminate].
    assert (H1 : lc_listener st1 = lc_listener st /\ lc_main st1 = lc_main st
                 /\ lc_server st1 = lc_server st).
    { destruct st as [s l m c b i n]. unfold returned, ListenAndServe_result in Hret.
      simpl in *. destruct m as [| | | | | | | | | | |site]; try contradiction.
      destruct Hl as [-> | ->]; destruct ev; simpl in Hs;
        unfold listenAndServe, ListenAndServe in Hs; simpl in Hs;
        try discriminate Hs;
        try (destruct c; try discriminate Hs; injection Hs as <-; auto). }
    destruct H1 as (Hl1 & Hm1 & Hs1).
    destruct (IH st1 st') as (Hl' & Hm' & Hs'); try assumption.
    + unfold returned, ListenAndServe_result in *. rewrite Hm1. exact Hret.
    + rewrite Hl1. exact Hl.
    + rewrite Hl', Hm', Hs'. auto.
Qed.

(** X15. An early return strands the goroutine. When [ListenAndServe] has
    returned for a failed connect or a failed migration, [listenAndServe]
    has not passed its send, and once it stands at the send after a failed
    bind it stays there for good, with [httpServerAvailable] true and no
    socket open. *)
Theorem early_return_strands_listener (st : lifecycle) :
  reachable env s0 st ->
  (lc_main st = M_returned R_migrate
   \/ exists e, lc_main st = M_returned (R_connect e)) ->
  listener_sent (lc_listener st) = false
  /\ (lc_listener st = L_send_bind ->
      forall evs st',
        exec env evs st = Some st' ->
        lc_listener st' = L_send_bind
        /\ httpServerAvailable (lc_server st') = true
        /\ lc_bound st' = false).
Proof.
  intros Hr Hm. pose proof (reachable_inv env s0 st Hr) as Hinv.
  assert (Hret : returned st).
  { unfold returned, ListenAndServe_result.
    destruct Hm as [-> | [e ->]]; discriminate. }
  split.
  - destruct Hinv as (_ & _ & _ & _ & _ & _ & I7 & _). simpl in I7.
    rewrite I7. destruct Hm as [-> | [e ->]]; reflexivity.
  - intros Hl evs st' He.
    destruct (send_never_received evs st st' Hret (or_introl Hl) He) as (Hl' & Hm' & Hs').
    pose proof (reachable_inv env s0 st' (exec_reachable env s0 evs st st' Hr He)) as Hinv'.
    destruct Hinv' as (_ & I2 & _ & _ & I5 & _). simpl in I2, I5.
    rewrite Hl', Hl. split; [reflexivity|].
    rewrite Hl', Hm', Hl in I2. rewrite Hl', Hl in I5. split.
    + destruct Hm as [Hm | [e Hm]]; rewrite Hm in I2; exact I2.
    + destruct (lc_bound st'); [|reflexivity]. discriminate (I5 eq_refl).
Qed.

(** X16. The store of [listenAndServe] can come after the reset of
    [ListenAndServe]: when connect and migration succeed there is a run in
    which the context is cancelled before the goroutine has run, and
    [ListenAndServe] has returned from the shutdown with
    [httpServerAvailable] true and [shutdownRequested] true. *)
Theorem store_after_reset :
  db_Connect env = None ->
  migrations_Migrate env = None ->
  exists st,
    reachable env s0 st
    /\ returned st
    /\ lc_inShutdown st = true
    /\ shutdownRequested (lc_server st) = true
    /\ httpServerAvailable (lc_server st) = true.
Proof.
  intros Hc Hm.
  destruct (httpServer_Shutdown env) as [e|] eqn:Hs.
  - eexists. split.
    { eapply (exec_reachable env s0
                [ev_main; ev_main; ev_cancel (errorString "context canceled");
                 ev_ctxDone; ev_main; ev_main; ev_main; ev_main; ev_listener]);
        [apply reach_init|].
      cbn [exec step lifecycle_init]. unfold ListenAndServe, listenAndServe. simpl.
      rewrite Hc. simpl. rewrite Hm. simpl. rewrite Hs. simpl. reflexivity. }
    split; [discriminate|].
    repeat split; simpl; rewrite ?CompareAndSwap_false_true; reflexivity.
  - eexists. split.
    { eapply (exec_reachable env s0
                [ev_main; ev_main; ev_cancel (errorString "context canceled");
                 ev_ctxDone; ev_main; ev_main; ev_main; ev_main; ev_main; ev_listener]);
        [apply reach_init|].
      cbn [exec step lifecycle_init]. unfold ListenAndServe, listenAndServe. simpl.
      rewrite Hc. simpl. rewrite Hm. simpl. rewrite Hs. simpl. reflexivity. }
    split; [discriminate|].
    repeat split; simpl; rewrite ?CompareAndSwap_false_true; reflexivity.
Qed.

End LifeCycleMore.

(** Tries the schedules in which only [ListenAndServe] runs, for a goal that
    also asks that the listener takes no part. *)
Ltac main_alone_to_return rew :=
  let go evs :=
    (exists evs;
     repeat (progress (cbn [exec step]; unfold ListenAndServe; simpl; rew));
     eexists; (split; [reflexivity | split; [discriminate | reflexivity]])) in
  first [ go (@nil event)
        | go [ev_main]
        | go [ev_main; ev_main]
        | go [ev_main; ev_main; ev_main]
        | go [ev_main; ev_main; ev_main; ev_main]
        | go [ev_main; ev_main; ev_main; ev_main; ev_main] ].

Section Cancellation.
Variables (env : Env) (s0 : server).

Lemma alone_after (evs0 : list event) (st st1 : lifecycle) :
  exec env evs0 st = Some st1 -> forallb main_side evs0 = true ->
  returns_without_listener env st1 -> returns_without_listener env st.
Proof.
  intros H0 Hq (evs & st' & He & Hret & Hall).
  exists (evs0 ++ evs)%list, st'. split; [|split; [exact Hret|]].
  - rewrite exec_app, H0. exact He.
  - rewrite forallb_app, Hq, Hall. reflexivity.
Qed.

Lemma alone_in_ctx_case (st : lifecycle) :
  main_in_ctx_case (lc_main st) = true -> lc_ctxErr st <> None ->
  returns_without_listener env st.
Proof.
  intros Hm Hc. destruct st as [s l m c b i n]. simpl in *.
  destruct c as [e|]; [clear Hc|contradiction].
  unfold returns_without_listener, returned, ListenAndServe_result.
  destruct (httpServer_Shutdown env) as [e'|] eqn:Hs;
    destruct m as [| | | | | | | | | | |[]]; try discriminate;
    main_alone_to_return ltac:(rewrite ?Hs).
Qed.

Lemma alone_from_select (st : lifecycle) :
  lc_main st = M_select -> returns_without_listener env st.
Proof.
  intros Hm. destruct st as [s l m c b i n]. simpl in Hm. subst m.
  destruct c as [e|].
  - apply (alone_after [ev_ctxDone] _
             (mkLifecycle s l M_ctx_log (Some e) b i n)); [reflexivity|reflexivity|].
    apply alone_in_ctx_case; [reflexivity|discriminate].
  - apply (alone_after [ev_cancel (errorString "context canceled"); ev_ctxDone] _
             (mkLifecycle s l M_ctx_log (Some (errorString "context canceled")) b i n));
      [reflexivity|reflexivity|].
    apply alone_in_ctx_case; [reflexivity|discriminate].
Qed.

Lemma alone_from_migrate (st : lifecycle) :
  lc_main st = M_migrate -> returns_without_listener env st.
Proof.
  intros Hm. destruct st as [s l m c b i n]. simpl in Hm. subst m.
  destruct (migrations_Migrate env) as [e|] eqn:Hmig.
  - unfold returns_without_listener, returned, ListenAndServe_result.
    main_alone_to_return ltac:(rewrite ?Hmig).
  - apply (alone_after [ev_main] _ (mkLifecycle s l M_select c b i n)).
    + cbn [exec step]. unfold ListenAndServe. simpl. rewrite Hmig. reflexivity.
    + reflexivity.
    + apply alone_from_select. reflexivity.
Qed.

Lemma alone_from_connect (st : lifecycle) :
  lc_main st = M_connect -> returns_without_listener env st.
Proof.
  intros Hm. destruct st as [s l m c b i n]. simpl in Hm. subst m.
  destruct (db_Connect env) as [e|] eqn:Hcon.
  - unfold returns_without_listener, returned, ListenAndServe_result.
    main_alone_to_return ltac:(rewrite ?Hcon).
  - apply (alone_after [ev_main] _ (mkLifecycle s l M_migrate c b i n)).
    + cbn [exec step]. unfold ListenAndServe. simpl. rewrite Hcon. reflexivity.
    + reflexivity.
    + apply alone_from_migrate. reflexivity.
Qed.

(** X17. Cancellation always ends the call. From every reachable state
    [ListenAndServe] comes to a [return] through its own steps and, where it
    waits in the [select], a cancellation of the context: it never has to
    wait for [listenAndServe]. *)
Theorem cancellation_brings_return (st : lifecycle) :
  reachable env s0 st -> returns_without_listener env st.
Proof.
  intros Hr. pose proof (reachable_inv env s0 st Hr) as Hinv.
  destruct (main_in_ctx_case (lc_main st)) eqn:Hctx.
  - apply alone_in_ctx_case; [exact Hctx|].
    destruct Hinv as (_ & _ & _ & _ & _ & _ & _ & _ & _ & I10 & _).
    apply I10. exact Hctx.
  - destruct (lc_main st) as [| | | | | | | | | | |site] eqn:Hm; try discriminate.
    + apply alone_from_connect. exact Hm.
    + apply alone_from_migrate. exact Hm.
    + destruct st as [s l m c b i n]. simpl in Hm. subst m.
      unfold returns_without_listener, returned, ListenAndServe_result.
      main_alone_to_return idtac.
    + apply alone_from_select. exact Hm.
    + destruct st as [s l m c b i n]. simpl in Hm. subst m.
      unfold returns_without_listener, returned, ListenAndServe_result.
      main_alone_to_return idtac.
    + destruct st as [s l m c b i n]. simpl in Hm. subst m.
      unfold returns_without_listener, returned, ListenAndServe_result.
      main_alone_to_return idtac.
    + exists [], st. split; [reflexivity|]. split; [|reflexivity].
      unfold returned, ListenAndServe_result. rewrite Hm. discriminate.
Qed.

End Cancellation.

(** ** The further properties on concrete runs *)

Lemma connect_failure_returns_error_witness :
  let env := mkEnv None (Some (errorString "connection refused")) None None in
  let s0 := new_server [] Examples.cfg in
  db_Connect env = Some (errorString "connection refused")
  /\ reachable env s0 (lifecycle_init s0)
  /\ exists evs st',
       exec env evs (lifecycle_init s0) = Some st'
       /\ ListenAndServe_result st'
          = Some (Some (wrapError "failed to connect to database"
                          (errorString "connection refused"))).
Proof.
  intros env s0. split; [reflexivity|]. split; [apply reach_init|].
  destruct (connect_failure_returns_error env s0 (lifecycle_init s0)
              (errorString "connection refused") eq_refl (reach_init _ _))
    as (_ & _ & H & _).
  exact H.
Defined.

Lemma ListenAndServe_return_values_witness :
  exists st,
    reachable env_bind_fails (new_server [] Examples.cfg) st
    /\ ListenAndServe_result st = Some None
    /\ db_Connect env_bind_fails = None.
Proof.
  eexists.
  match goal with
  | |- ?R /\ _ =>
      assert (Hr : R);
      [eapply (exec_reachable env_bind_fails _
                 [ev_listener; ev_listener; ev_listener; ev_main; ev_main;
                  ev_httpClosed; ev_main; ev_main]);
         [apply reach_init | vm_compute; reflexivity] |]
  end.
  split; [exact Hr|]. split; [reflexivity|].
  apply (ListenAndServe_return_values env_bind_fails _ _ None Hr eq_refl).
Defined.

Lemma shutdownRequested_meaning_witness :
  let s0 := new_server [] Examples.cfg in
  let env := mkEnv None None None None in
  exists st,
    shutdownRequested s0 = false
    /\ reachable env s0 st
    /\ lc_main st = M_shutdown
    /\ shutdownRequested (lc_server st) = true.
Proof.
  intros s0 env. eexists. split; [reflexivity|].
  match goal with
  | |- ?R /\ _ =>
      assert (Hr : R);
      [eapply (exec_reachable env _
                 [ev_main; ev_main; ev_cancel (errorString "context canceled");
                  ev_ctxDone; ev_main; ev_main; ev_main]);
         [apply reach_init | vm_compute; reflexivity] |]
  end.
  split; [exact Hr|]. split; [reflexivity|].
  destruct (shutdownRequested_meaning env s0 _ eq_refl Hr) as (H & _).
  rewrite H. reflexivity.
Defined.

Lemma early_return_strands_listener_witness :
  let s0 := new_server [] Examples.cfg in
  let env := mkEnv (Some (errorString "listen tcp: address already in use"))
                   (Some (errorString "connection refused")) None None in
  exists st,
    reachable env s0 st
    /\ lc_main st = M_returned (R_connect (errorString "connection refused"))
    /\ lc_listener st = L_send_bind
    /\ forall evs st', exec env evs st = Some st' ->
                       httpServerAvailable (lc_server st') = true.
Proof.
  intros s0 env. eexists.
  match goal with
  | |- ?R /\ _ =>
      assert (Hr : R);
      [eapply (exec_reachable env _ [ev_listener; ev_listener; ev_listener; ev_main]);
         [apply reach_init | vm_compute; reflexivity] |]
  end.
  split; [exact Hr|]. split; [reflexivity|]. split; [reflexivity|].
  intros evs st' He.
  destruct (early_return_strands_listener env s0 _ Hr
              (or_intror (ex_intro _ (errorString "connection refused") eq_refl)))
    as [_ H].
  destruct (H eq_refl evs st' He) as (_ & Hflag & _). exact Hflag.
Defined.

Lemma store_after_reset_witness :
  let env := mkEnv None None None None in
  db_Connect env = None /\ migrations_Migrate env = None
  /\ exists st,
       reachable env (new_server [] Examples.cfg) st
       /\ returned st
       /\ lc_inShutdown st = true
       /\ shutdownRequested (lc_server st) = true
       /\ httpServerAvailable (lc_server st) = true.
Proof.
  intros env. split; [reflexivity|]. split; [reflexivity|].
  exact (store_after_reset env (new_server [] Examples.cfg) eq_refl eq_refl).
Defined.

Lemma cancellation_brings_return_witness :
  let env := mkEnv None None None None in
  let s0 := new_server [] Examples.cfg in
  reachable env s0 (lifecycle_init s0)
  /\ returns_without_listener env (lifecycle_init s0).
Proof.
  intros env s0. split; [apply reach_init|].
  exact (cancellation_brings_return env s0 (lifecycle_init s0) (reach_init _ _)).
Defined.

